(** * YOLOE trainers: dataset assembly, embedding cache, model construction

    A shallow embedding of [ultralytics/models/yolo/yoloe/train.py].

    Python values are embedded as [pyval]; insertion-ordered dictionaries as
    association lists with in-place update ([dict]); exceptions as the left
    summand of [result]; the cache files and the calls made to external
    components as a [World] threaded through the monad [M]. *)

From Stdlib Require Import ZArith List String Ascii Bool Lia.
From stdpp Require Import base decidable option list strings pretty gmap.
Import ListNotations.

Local Open Scope Z_scope.

(** ** Exceptions and results *)

Inductive exn :=
| AssertionError (msg : string)
| KeyError
| IndexError
| TypeError
| AttributeError
| RuntimeError
| FileNotFoundError
| Unmodelled.   (* a value outside [pyval] would be produced (a float) *)

Definition result (A : Type) : Type := exn + A.
Definition Ok {A} (a : A) : result A := inr a.
Definition Err {A} (e : exn) : result A := inl e.

Definition rbind {A B} (r : result A) (f : A -> result B) : result B :=
  match r with
  | inl e => inl e
  | inr a => f a
  end.

Notation "x <-? r ;; k" := (rbind r (fun x => k))
  (at level 100, r at next level, right associativity).

(** A list comprehension whose body may raise: the first exception aborts. *)
Fixpoint rmap {A B} (f : A -> result B) (l : list A) : result (list B) :=
  match l with
  | [] => Ok []
  | x :: xs => y <-? f x ;; ys <-? rmap f xs ;; Ok (y :: ys)
  end.

(** [assert cond, msg] *)
Definition rassert (cond : bool) (msg : string) : result unit :=
  if cond then Ok tt else Err (AssertionError msg).

(** ** pathlib *)

(** A [PurePosixPath]: whether it is absolute, and its components. *)
Abbreviation Path := (bool * list string)%type.

Definition slash : ascii := "/"%char.

(** Components of a string between slashes, [acc] being the component read
    so far. *)
Fixpoint split_slash (s : string) (acc : string) : list string :=
  match s with
  | EmptyString => [acc]
  | String c rest =>
      if Ascii.eqb c slash then acc :: split_slash rest EmptyString
      else split_slash rest (acc +:+ String c EmptyString)
  end.

Definition keep_part (s : string) : bool :=
  negb (String.eqb s "" || String.eqb s ".").

(** [Path(s)]: empty and [.] components are dropped. *)
Definition Path_of_string (s : string) : Path :=
  (match s with
   | String c _ => Ascii.eqb c slash
   | EmptyString => false
   end,
   List.filter keep_part (split_slash s EmptyString)).

Fixpoint join_parts (l : list string) : string :=
  match l with
  | [] => ""
  | [x] => x
  | x :: xs => x +:+ "/" +:+ join_parts xs
  end.

(** [str(p)] *)
Definition Path_str (p : Path) : string :=
  match p with
  | (true, l) => "/" +:+ join_parts l
  | (false, []) => "."
  | (false, l) => join_parts l
  end.

(** [p.parent] *)
Definition Path_parent (p : Path) : Path := (fst p, removelast (snd p)).

(** [p / q]: an absolute right operand replaces the left one. *)
Definition Path_join (p q : Path) : Path :=
  if fst q then q else (fst p, snd p ++ snd q).

(** ** Python values *)

(** Hashable values used as dictionary keys.  [True] and [False] hash and
    compare equal to [1] and [0], so they are the same key. *)
Inductive pykey :=
| KNone
| KInt (z : Z)
| KStr (s : string)
| KPath (p : Path).

Global Instance pykey_eq_dec : EqDecision pykey.
Proof. solve_decision. Defined.

#[warnings="-register-all"]
Inductive pyval :=
| PNone
| PBool (b : bool)
| PInt (z : Z)
| PStr (s : string)
| PPath (p : Path)
| PList (l : list pyval)
| PDict (d : list (pykey * pyval)).

(** ** Insertion-ordered dictionaries *)

Definition dict (K V : Type) : Type := list (K * V).

Section Dict.
Context {K : Type} `{EqDecision K} {V : Type}.

(** [d.get(k)] *)
Fixpoint dict_get (k : K) (d : dict K V) : option V :=
  match d with
  | [] => None
  | (k', v) :: rest => if decide (k = k') then Some v else dict_get k rest
  end.

(** [d[k] = v]: an existing key keeps its position, a new one goes last. *)
Fixpoint dict_set (k : K) (v : V) (d : dict K V) : dict K V :=
  match d with
  | [] => [(k, v)]
  | (k', v') :: rest =>
      if decide (k = k') then (k', v) :: rest
      else (k', v') :: dict_set k v rest
  end.

Definition dict_keys (d : dict K V) : list K := map fst d.

(** [d[k]] *)
Definition dict_item (k : K) (d : dict K V) : result V :=
  match dict_get k d with
  | Some v => Ok v
  | None => Err KeyError
  end.

(** [d.get(k, dflt)] *)
Definition dict_get_default (k : K) (dflt : V) (d : dict K V) : V :=
  match dict_get k d with
  | Some v => v
  | None => dflt
  end.

(** [{k: v for k, v in pairs}] built on top of [d] *)
Definition dict_update (pairs : list (K * V)) (d : dict K V) : dict K V :=
  fold_left (fun acc kv => dict_set (fst kv) (snd kv) acc) pairs d.

(** Keys of a Python dictionary are pairwise distinct. *)
Definition dict_wf (d : dict K V) : Prop := List.NoDup (dict_keys d).
End Dict.

Abbreviation pydict := (dict pykey pyval).

(** [hash(v)]: lists and dictionaries are unhashable. *)
Definition py_hash (v : pyval) : result pykey :=
  match v with
  | PNone => Ok KNone
  | PBool b => Ok (KInt (if b then 1 else 0))
  | PInt z => Ok (KInt z)
  | PStr s => Ok (KStr s)
  | PPath p => Ok (KPath p)
  | PList _ | PDict _ => Err TypeError
  end.

Definition pykey_val (k : pykey) : pyval :=
  match k with
  | KNone => PNone
  | KInt z => PInt z
  | KStr s => PStr s
  | KPath p => PPath p
  end.

(** [bool(v)] *)
Definition truthy (v : pyval) : bool :=
  match v with
  | PNone => false
  | PBool b => b
  | PInt z => negb (z =? 0)
  | PStr s => negb (String.eqb s "")
  | PPath _ => true
  | PList l => match l with [] => false | _ => true end
  | PDict d => match d with [] => false | _ => true end
  end.

Fixpoint chars (s : string) : list string :=
  match s with
  | EmptyString => []
  | String c rest => String c EmptyString :: chars rest
  end.

(** [for x in v] *)
Definition py_iter (v : pyval) : result (list pyval) :=
  match v with
  | PList l => Ok l
  | PStr s => Ok (map PStr (chars s))
  | PDict d => Ok (map pykey_val (dict_keys d))
  | PNone | PBool _ | PInt _ | PPath _ => Err TypeError
  end.

(** [v.get(key, dflt)]: only dictionaries have the method. *)
Definition py_get (v : pyval) (key : string) (dflt : pyval) : result pyval :=
  match v with
  | PDict d => Ok (dict_get_default (KStr key) dflt d)
  | _ => Err AttributeError
  end.

(** [v[key]] for a string key *)
Definition py_getitem (v : pyval) (key : string) : result pyval :=
  match v with
  | PDict d => dict_item (KStr key) d
  | _ => Err TypeError
  end.

(** [needle in hay] on strings *)
Fixpoint str_contains (needle hay : string) : bool :=
  String.prefix needle hay ||
  match hay with
  | EmptyString => false
  | String _ rest => str_contains needle rest
  end.

Definition is_str (s : string) (v : pyval) : bool :=
  match v with
  | PStr t => String.eqb s t
  | _ => false
  end.

(** [s in v] for a string [s] *)
Definition py_contains (s : string) (v : pyval) : result bool :=
  match v with
  | PStr hay => Ok (str_contains s hay)
  | PList l => Ok (existsb (is_str s) l)
  | PDict d => Ok (match dict_get (KStr s) d with Some _ => true | None => false end)
  | PNone | PBool _ | PInt _ | PPath _ => Err TypeError
  end.

Definition is_number (v : pyval) : bool :=
  match v with
  | PBool _ | PInt _ => true
  | _ => false
  end.

(** [a / b]: path joining; on numbers it is float division. *)
Definition py_truediv (a b : pyval) : result Path :=
  match a, b with
  | PPath p, PStr s => Ok (Path_join p (Path_of_string s))
  | PPath p, PPath q => Ok (Path_join p q)
  | PStr s, PPath q => Ok (Path_join (Path_of_string s) q)
  | _, _ => if is_number a && is_number b then Err Unmodelled else Err TypeError
  end.

(** [v.items()] *)
Definition py_items (v : pyval) : result pydict :=
  match v with
  | PDict d => Ok d
  | _ => Err AttributeError
  end.

(** [type(v)] as it prints *)
Definition py_type (v : pyval) : string :=
  match v with
  | PNone => "<class 'NoneType'>"
  | PBool _ => "<class 'bool'>"
  | PInt _ => "<class 'int'>"
  | PStr _ => "<class 'str'>"
  | PPath _ => "<class 'pathlib.PosixPath'>"
  | PList _ => "<class 'list'>"
  | PDict _ => "<class 'dict'>"
  end.

(** ** torch tensors, seen as lists of rows *)

Section Tensor.
Context {A : Type}.

(** Rows [0..n), [n..2n), ... of [t]; [fuel] bounds the number of chunks. *)
Fixpoint chunks_from (fuel n : nat) (t : list A) : list (list A) :=
  match fuel with
  | O => []
  | S fuel' =>
      match t with
      | [] => []
      | _ => firstn n t :: chunks_from fuel' n (skipn n t)
      end
  end.

(** [t.split(split_size)] along the first dimension: chunks of [split_size]
    rows, the last one shorter; a tensor without rows gives one empty chunk;
    a zero chunk size is accepted for such a tensor only. *)
Definition tensor_split (t : list A) (split_size : Z) : result (list (list A)) :=
  if split_size <? 0 then Err RuntimeError
  else
    match t with
    | [] => Ok [[]]
    | _ =>
        if split_size =? 0 then Err RuntimeError
        else Ok (chunks_from (length t) (Z.to_nat split_size) t)
    end.

(** [torch.cat(ts, dim=0)] *)
Definition torch_cat (ts : list (list A)) : result (list A) :=
  match ts with
  | [] => Err RuntimeError
  | _ => Ok (concat ts)
  end.
End Tensor.

(** ** External components *)

(** The text model built by [build_text_model]: [tokenize] gives one row of
    tokens per text, [encode_text] one feature row per token row. *)
Record TextModel (Tok Feat : Type) := {
  tokenize : list string -> list Tok;
  encode_text : list Tok -> list Feat
}.
Arguments tokenize {Tok Feat}.
Arguments encode_text {Tok Feat}.

Definition text_model_rows {Tok Feat} (tm : TextModel Tok Feat) : Prop :=
  (forall texts, length (tokenize tm texts) = length texts) /\
  (forall toks, length (encode_text tm toks) = length toks).

(** A stage of a dataset's transform pipeline; [accepts_embeddings] is
    [hasattr(transform, "set_embeddings")], [embeddings] what the last call
    of [set_embeddings] stored. *)
Record Transform (Feat : Type) := {
  accepts_embeddings : bool;
  embeddings : option (dict string Feat * dict string Feat)
}.
Arguments accepts_embeddings {Feat}.
Arguments embeddings {Feat}.

(** A dataset object; an optional attribute is [None] when the object does
    not have it. *)
Record Dataset (Feat : Type) := {
  img_path : pyval;
  category_names : option (gset string);
  category_freq : option (dict string Z);
  transforms : list (Transform Feat);
  num_samples : nat
}.
Arguments img_path {Feat}.
Arguments category_names {Feat}.
Arguments category_freq {Feat}.
Arguments transforms {Feat}.
Arguments num_samples {Feat}.

(** What [build_dataset] returns. *)
Inductive DatasetObj (Feat : Type) :=
| Plain (d : Dataset Feat)
| YOLOConcatDataset (datasets : list (Dataset Feat)).
Arguments Plain {Feat}.
Arguments YOLOConcatDataset {Feat}.

(** The data utilities of the framework. *)
Record DataAPI (Feat : Type) := {
  check_det_dataset : pyval -> result pydict;
  build_yolo_dataset :
    pyval -> option Z -> pydict -> dict string pyval -> Dataset Feat;
  build_grounding :
    pyval -> pyval -> option Z -> dict string pyval -> Dataset Feat
}.
Arguments check_det_dataset {Feat}.
Arguments build_yolo_dataset {Feat}.
Arguments build_grounding {Feat}.

(** ** The world: cache files and calls to external components *)

Inductive Event (Tok : Type) :=
| EvBuildTextModel (variant device : string)
| EvTokenize (texts : list string)
| EvEncodeText (tokens : list Tok)
| EvTorchLoad (p : Path)
| EvTorchSave (p : Path)
| EvCheckDetDataset (d : pyval).
Arguments EvBuildTextModel {Tok}.
Arguments EvTokenize {Tok}.
Arguments EvEncodeText {Tok}.
Arguments EvTorchLoad {Tok}.
Arguments EvTorchSave {Tok}.
Arguments EvCheckDetDataset {Tok}.

Record World (Tok Feat : Type) := {
  files : gmap Path (dict string Feat);
  trace : list (Event Tok)
}.
Arguments files {Tok Feat}.
Arguments trace {Tok Feat}.

Section Monad.
Context {Tok Feat : Type}.

Definition M (A : Type) : Type :=
  World Tok Feat -> result A * World Tok Feat.

Definition ret {A} (a : A) : M A := fun w => (Ok a, w).

Definition bind {A B} (m : M A) (f : A -> M B) : M B :=
  fun w =>
    match m w with
    | (inl e, w') => (inl e, w')
    | (inr a, w') => f a w'
    end.

Definition lift {A} (r : result A) : M A := fun w => (r, w).

Definition emit (ev : Event Tok) : M unit :=
  fun w => (Ok tt, {| files := files w; trace := trace w ++ [ev] |}).

Definition py_assert (cond : bool) (msg : string) : M unit :=
  lift (rassert cond msg).

Definition exists_file (p : Path) : M bool :=
  fun w => (Ok (bool_decide (is_Some (files w !! p))), w).

(** [torch.load(p)] *)
Definition torch_load (p : Path) : M (dict string Feat) :=
  fun w =>
    match files w !! p with
    | Some m => (Ok m, {| files := files w; trace := trace w ++ [EvTorchLoad p] |})
    | None => (Err RuntimeError, w)
    end.

(** [torch.save(m, p)] *)
Definition torch_save (m : dict string Feat) (p : Path) : M unit :=
  fun w =>
    (Ok tt, {| files := <[p := m]> (files w); trace := trace w ++ [EvTorchSave p] |}).

Fixpoint mmap {A B} (f : A -> M B) (l : list A) : M (list B) :=
  match l with
  | [] => ret []
  | x :: xs => bind (f x) (fun y => bind (mmap f xs) (fun ys => ret (y :: ys)))
  end.
End Monad.

Notation "x <- m ;; k" := (bind m (fun x => k))
  (at level 100, m at next level, right associativity).
Notation "m ;;; k" := (bind m (fun _ => k))
  (at level 100, right associativity).

(** ** Attribute probing *)

(** [hasattr(obj, field)] and [obj.field] for an optional attribute. *)
Definition hasattr {A B} (field : A -> option B) (obj : A) : bool :=
  match field obj with
  | Some _ => true
  | None => false
  end.

Definition getattr {A B} (field : A -> option B) (obj : A) : result B :=
  match field obj with
  | Some v => Ok v
  | None => Err AttributeError
  end.

(** [l[0]] *)
Definition list_item0 {A} (l : list A) : result A :=
  match l with
  | x :: _ => Ok x
  | [] => Err IndexError
  end.

(** [v[0]] *)
Definition py_index0 (v : pyval) : result pyval :=
  match v with
  | PList l => list_item0 l
  | PStr s => list_item0 (map PStr (chars s))
  | PDict d => dict_item (KInt 0) d
  | PNone | PBool _ | PInt _ | PPath _ => Err TypeError
  end.

(** [Path(v)] *)
Definition py_Path (v : pyval) : result Path :=
  match v with
  | PStr s => Ok (Path_of_string s)
  | PPath p => Ok p
  | _ => Err TypeError
  end.

(** [min(a, b)] on integers; [a] is returned unless [b] is smaller. *)
Definition py_min (a b : pyval) : result pyval :=
  let as_int v :=
    match v with
    | PInt z => Some z
    | PBool c => Some (if c then 1 else 0)
    | _ => None
    end in
  match as_int a, as_int b with
  | Some x, Some y => Ok (if y <? x then b else a)
  | _, _ => Err TypeError
  end.

(** ** The trainers *)

Record Trainer := {
  args_data : pyval;              (* self.args.data *)
  args_train_pe_path : pyval;     (* self.args.train_pe_path *)
  data : pydict;                  (* self.data *)
  training_data : dict pykey pydict;
  model_stride : option Z;        (* largest stride of self.model, if any *)
  device : string
}.

Inductive TrainerClass :=
| YOLOETrainer
| YOLOEPETrainer
| YOLOETrainerFromScratch
| YOLOEPEFreeTrainer
| YOLOEVPTrainer.

(** *** Model construction *)

(** The arguments of a call of the [YOLOEModel] constructor, and what is
    done to the model afterwards. *)
Record YOLOEModelArgs := {
  yaml_cfg : pyval;
  ch : Z;
  nc : pyval;
  verbose : bool
}.

Inductive ModelOp :=
| OpDelSavpe
| OpLoadWeights (weights : pyval)
| OpEval
| OpSetClasses (pe_path : pyval)
| OpFuse
| OpUnfreeze (i : Z)
| OpDelPe
| OpTrain.

Record Model := {
  ctor : YOLOEModelArgs;
  ops : list ModelOp
}.

Definition model_cfg (cfg : pyval) : result pyval :=
  match cfg with
  | PDict d => dict_item (KStr "yaml_file") d
  | _ => Ok cfg
  end.

Definition load_weights (weights : pyval) : list ModelOp :=
  if truthy weights then [OpLoadWeights weights] else [].

(** [YOLOETrainer.get_model] *)
Definition YOLOETrainer_get_model (RANK : Z) (self : Trainer)
    (cfg weights : pyval) (verbose : bool) : result Model :=
  c <-? model_cfg cfg ;;
  n <-? dict_item (KStr "nc") (data self) ;;
  n <-? py_min n (PInt 80) ;;
  Ok {| ctor := {| yaml_cfg := c; ch := 3; nc := n;
                   verbose := verbose && (RANK =? -1) |};
        ops := load_weights weights |}.

(** [YOLOEPETrainer.get_model] *)
Definition YOLOEPETrainer_get_model (RANK : Z) (self : Trainer)
    (cfg weights : pyval) (verbose : bool) : result Model :=
  c <-? model_cfg cfg ;;
  n <-? dict_item (KStr "nc") (data self) ;;
  Ok {| ctor := {| yaml_cfg := c; ch := 3; nc := n;
                   verbose := verbose && (RANK =? -1) |};
        ops := [OpDelSavpe] ++ load_weights weights ++
               [OpEval; OpSetClasses (args_train_pe_path self); OpFuse;
                OpUnfreeze 0; OpUnfreeze 1; OpUnfreeze 2; OpDelPe; OpTrain] |}.

(** Method resolution: the class whose [get_model] a trainer class runs. *)
Definition get_model (cls : TrainerClass) :
    Z -> Trainer -> pyval -> pyval -> bool -> result Model :=
  match cls with
  | YOLOETrainer | YOLOETrainerFromScratch | YOLOEVPTrainer =>
      YOLOETrainer_get_model
  | YOLOEPETrainer | YOLOEPEFreeTrainer => YOLOEPETrainer_get_model
  end.

(** *** Negative labels *)

Definition _get_neg_texts (category_freq : dict string Z) (threshold : Z)
    : list string :=
  map fst (List.filter (fun kv => threshold <=? snd kv) category_freq).

(** *** Embedding cache *)

Section Embeddings.
Context {Tok Feat : Type}.
Variable tm : TextModel Tok Feat.

Definition encode_batch (text_token : list Tok) : M (list Feat) :=
  emit (Tok:=Tok) (Feat:=Feat) (EvEncodeText text_token) ;;;
  ret (encode_text tm text_token).

Definition generate_data_embeddings (texts : list string) (batch : option Z)
    (device : string) (cache_path : Path) : M (Tok:=Tok) (dict string Feat) :=
  hit <- exists_file cache_path ;;
  if hit : bool then torch_load cache_path
  else
    emit (EvBuildTextModel "mobileclip:blt" device) ;;;
    emit (EvTokenize texts) ;;;
    let text_tokens := tokenize tm texts in
    batches <- lift (match batch with
                     | Some b => tensor_split text_tokens b
                     | None => Err TypeError
                     end) ;;
    txt_feats <- mmap encode_batch batches ;;
    txt_feats <- lift (torch_cat txt_feats) ;;
    let txt_map := dict_update (combine texts txt_feats) [] in
    torch_save txt_map cache_path ;;;
    ret txt_map.
End Embeddings.

(** *** Dataset assembly *)

Section Assembly.
Context {Tok Feat : Type}.
Variable tm : TextModel Tok Feat.
Variable api : DataAPI Feat.

Definition build_source (self : Trainer) (batch : option Z) (gs : Z)
    (im_path : pyval) : result (Dataset Feat) :=
  match im_path with
  | PStr s =>
      d <-? dict_item (KStr s) (training_data self) ;;
      Ok (build_yolo_dataset api im_path batch d
            [("stride", PInt gs); ("multi_modal", PBool true)])
  | _ =>
      i <-? py_getitem im_path "img_path" ;;
      j <-? py_getitem im_path "json_file" ;;
      Ok (build_grounding api i j batch [("stride", PInt gs)])
  end.

Fixpoint union_category_names (datasets : list (Dataset Feat))
    (acc : gset string) : result (gset string) :=
  match datasets with
  | [] => Ok acc
  | dataset :: rest =>
      if negb (hasattr category_names dataset)
      then union_category_names rest acc
      else
        names <-? getattr category_names dataset ;;
        union_category_names rest (acc ∪ names)
  end.

(** [for k, v in items: acc[k] += v] on a [defaultdict(int)] *)
Definition add_counts (items acc : dict string Z) : dict string Z :=
  fold_left
    (fun acc kv => dict_set (fst kv) (dict_get_default (fst kv) 0 acc + snd kv) acc)
    items acc.

Fixpoint sum_category_freq (datasets : list (Dataset Feat))
    (acc : dict string Z) : result (dict string Z) :=
  match datasets with
  | [] => Ok acc
  | dataset :: rest =>
      if negb (hasattr category_freq dataset)
      then sum_category_freq rest acc
      else
        freq <-? getattr category_freq dataset ;;
        sum_category_freq rest (add_counts freq acc)
  end.

Definition set_embeddings (pos neg : dict string Feat) (t : Transform Feat)
    : Transform Feat :=
  {| accepts_embeddings := accepts_embeddings t; embeddings := Some (pos, neg) |}.

(** The dataset after [set_embeddings] was called on each of its transforms
    that has the method. *)
Definition inject_embeddings (pos neg : dict string Feat) (d : Dataset Feat)
    : Dataset Feat :=
  {| img_path := img_path d;
     category_names := category_names d;
     category_freq := category_freq d;
     transforms :=
       map (fun t => if negb (accepts_embeddings t) then t
                     else set_embeddings pos neg t) (transforms d);
     num_samples := num_samples d |}.

Definition stride_of (self : Trainer) : Z :=
  Z.max (match model_stride self with Some s => s | None => 0 end) 32.

(** [YOLOETrainerFromScratch.build_dataset] *)
Definition build_dataset (self : Trainer) (img_paths : pyval) (mode : string)
    (batch : option Z) : M (Tok:=Tok) (DatasetObj Feat) :=
  let gs := stride_of self in
  if negb (String.eqb mode "train") then
    ret (Plain (build_yolo_dataset api img_paths batch (data self)
                  [("mode", PStr mode); ("rect", PBool false);
                   ("stride", PInt gs); ("load_vp", PBool false)]))
  else
    sources <- lift (py_iter img_paths) ;;
    datasets <- lift (rmap (build_source self batch gs) sources) ;;
    category_names <- lift (union_category_names datasets ∅) ;;
    category_freq <- lift (sum_category_freq datasets []) ;;
    let neg_names := _get_neg_texts category_freq 100 in
    first <- lift (list_item0 datasets) ;;
    dir <- lift (py_Path (img_path first)) ;;
    pos_embeddings <-
      generate_data_embeddings tm (elements category_names) batch (device self)
        (Path_join (Path_parent dir) (Path_of_string "pos_embeddings.pt")) ;;
    neg_embeddings <-
      generate_data_embeddings tm neg_names batch (device self)
        (Path_join (Path_parent dir) (Path_of_string "neg_embeddings.pt")) ;;
    let datasets := map (inject_embeddings pos_embeddings neg_embeddings) datasets in
    if (1 <? length datasets)%nat then ret (YOLOConcatDataset datasets)
    else lift (r <-? list_item0 datasets ;; Ok (Plain r)).
End Assembly.

(** Modelled from the spec: [YOLOConcatDataset] (in [ultralytics.data]) is
    not among the sources; the spec describes it as an order-preserving
    concatenation of its constituents.  A sample is named by the index of its
    constituent and its index inside it. *)
Definition sample_order {Feat} (o : DatasetObj Feat) : list (nat * nat) :=
  match o with
  | Plain d => map (pair 0%nat) (seq 0 (num_samples d))
  | YOLOConcatDataset ds =>
      concat (imap (fun i d => map (pair i) (seq 0 (num_samples d))) ds)
  end.

Definition constituents {Feat} (o : DatasetObj Feat) : list (Dataset Feat) :=
  match o with
  | Plain d => [d]
  | YOLOConcatDataset ds => ds
  end.

(** *** Dataset paths *)

(** [val_split]: which split of the validation dataset is used. *)
Definition val_split_of (d : pydict) : result string :=
  v <-? dict_item (KStr "val") d ;;
  lvis <-? py_contains "lvis" v ;;
  Ok (if lvis : bool then "minival" else "val").

(** The body of the loop that makes [minival] an absolute path. *)
Definition resolve_minival (d : pydict) : result pydict :=
  match dict_get_default (KStr "minival") PNone d with
  | PNone => Ok d
  | minival =>
      root <-? dict_item (KStr "path") d ;;
      p <-? py_truediv root minival ;;
      Ok (dict_set (KStr "minival") (PStr (Path_str p)) d)
  end.

Definition grounding_list (grounding_data : pyval) : list pyval :=
  match grounding_data with
  | PList l => l
  | _ => [grounding_data]
  end.

Fixpoint assert_dicts (gs : list pyval) : result unit :=
  match gs with
  | [] => Ok tt
  | g :: rest =>
      _ <-? rassert (match g with PDict _ => true | _ => false end)
              ("Grounding data should be provided in dict format, but got "
               +:+ py_type g) ;;
      assert_dicts rest
  end.

(** One round of the loop over the splits: [final_data[s]]. *)
Definition split_sources (cfg : pydict) (data : dict pykey (list pydict))
    (val_split s : string) : result (list pyval) :=
  ds <-? dict_item (KStr s) data ;;
  paths <-? rmap (dict_item (KStr (if String.eqb s "train" then "train"
                                   else val_split))) ds ;;
  entry <-? dict_item (KStr s) cfg ;;
  grounding_data <-? py_get entry "grounding_data" PNone ;;
  match grounding_data with
  | PNone => Ok paths
  | _ =>
      _ <-? assert_dicts (grounding_list grounding_data) ;;
      Ok (paths ++ grounding_list grounding_data)
  end.

(** [for d in data["train"]: self.training_data[d["train"]] = d] *)
Fixpoint index_training_data (ds : list pydict) (acc : dict pykey pydict)
    : result (dict pykey pydict) :=
  match ds with
  | [] => Ok acc
  | d :: rest =>
      t <-? dict_item (KStr "train") d ;;
      k <-? py_hash t ;;
      index_training_data rest (dict_set k d acc)
  end.

(** [get_dataset] once the datasets of the configuration are checked.  The
    trainer is returned with [data] and [training_data] replaced. *)
Definition assemble (self : Trainer) (cfg : pydict)
    (data : dict pykey (list pydict)) : result (Trainer * (pyval * pyval)) :=
  val_data <-? dict_item (KStr "val") data ;;
  _ <-? rassert (length val_data =? 1)%nat
          ("Only support validating on 1 dataset for now, but got "
           +:+ pretty (length val_data) +:+ ".") ;;
  d0 <-? list_item0 val_data ;;
  val_split <-? val_split_of d0 ;;
  val_data <-? rmap resolve_minival val_data ;;
  let data := dict_set (KStr "val") val_data data in
  train <-? split_sources cfg data val_split "train" ;;
  val <-? split_sources cfg data val_split "val" ;;
  d0 <-? list_item0 val_data ;;
  nc <-? dict_item (KStr "nc") d0 ;;
  names <-? dict_item (KStr "names") d0 ;;
  path <-? dict_item (KStr "path") d0 ;;
  let final_data :=
    [(KStr "train", PList train); (KStr "val", PList val);
     (KStr "nc", nc); (KStr "names", names); (KStr "path", path)] in
  train_data <-? dict_item (KStr "train") data ;;
  training_data <-? index_training_data train_data [] ;;
  val0 <-? list_item0 val ;;
  Ok ({| args_data := args_data self;
         args_train_pe_path := args_train_pe_path self;
         data := final_data;
         training_data := training_data;
         model_stride := model_stride self;
         device := device self |},
      (PList train, val0)).

Section GetDataset.
Context {Tok Feat : Type}.
Variable api : DataAPI Feat.

Definition check_det (d : pyval) : M (Tok:=Tok) (Feat:=Feat) pydict :=
  emit (EvCheckDetDataset d) ;;;
  lift (check_det_dataset api d).

(** [[check_det_dataset(d) for d in v.get("yolo_data", [])]] *)
Definition resolve_entry (v : pyval) : M (list pydict) :=
  yolo_data <- lift (py_get v "yolo_data" (PList [])) ;;
  ds <- lift (py_iter yolo_data) ;;
  mmap check_det ds.

(** [{k: [...] for k, v in data_yaml.items()}] *)
Definition resolve_config (cfg : pydict) : M (dict pykey (list pydict)) :=
  mmap (fun kv => ds <- resolve_entry (snd kv) ;; ret (fst kv, ds)) cfg.

(** [YOLOETrainerFromScratch.get_dataset] *)
Definition get_dataset (self : Trainer) : M (Trainer * (pyval * pyval)) :=
  let data_yaml := args_data self in
  train <- lift (py_get data_yaml "train" (PBool false)) ;;
  py_assert (truthy train) "train dataset not found" ;;;
  val <- lift (py_get data_yaml "val" (PBool false)) ;;
  py_assert (truthy val) "validation dataset not found" ;;;
  cfg <- lift (py_items data_yaml) ;;
  data <- resolve_config cfg ;;
  lift (assemble self cfg data).
End GetDataset.

(** [YOLOETrainerFromScratch.final_eval]: the dataset and the split given to
    the validator. *)
Definition final_eval (self : Trainer) : result (pyval * string) :=
  v <-? py_getitem (args_data self) "val" ;;
  y <-? py_getitem v "yolo_data" ;;
  val <-? py_index0 y ;;
  Ok (val,
      if match val with PStr s => str_contains "lvis" s | _ => false end
      then "minival" else "val").

(** *** Batch preprocessing *)

(** A batch is a dictionary of tensors.  [base] is
    [DetectionTrainer.preprocess_batch], [to_device dev t] is [t.to(dev)]. *)
Section Preprocess.
Context {T : Type}.
Variable base : dict string T -> result (dict string T).
Variable to_device : string -> T -> T.

(** [YOLOETrainer.preprocess_batch] *)
Definition YOLOETrainer_preprocess_batch (self : Trainer)
    (batch : dict string T) : result (dict string T) :=
  batch <-? base batch ;;
  text_feats <-? dict_item "text_feats" batch ;;
  Ok (dict_set "txt_feats" (to_device (device self) text_feats) batch).

(** [YOLOEPEFreeTrainer.preprocess_batch]: [super(YOLOETrainer, self)] starts
    the lookup after [YOLOETrainer]. *)
Definition YOLOEPEFreeTrainer_preprocess_batch (self : Trainer)
    (batch : dict string T) : result (dict string T) :=
  base batch.

(** [YOLOEVPTrainer.preprocess_batch] *)
Definition YOLOEVPTrainer_preprocess_batch (self : Trainer)
    (batch : dict string T) : result (dict string T) :=
  batch <-? YOLOETrainer_preprocess_batch self batch ;;
  visuals <-? dict_item "visuals" batch ;;
  Ok (dict_set "visuals" (to_device (device self) visuals) batch).

(** Method resolution: [YOLOEPETrainer] defines none and inherits the one of
    [DetectionTrainer]. *)
Definition preprocess_batch (cls : TrainerClass) :
    Trainer -> dict string T -> result (dict string T) :=
  match cls with
  | YOLOETrainer | YOLOETrainerFromScratch => YOLOETrainer_preprocess_batch
  | YOLOEPETrainer => fun _ => base
  | YOLOEPEFreeTrainer => YOLOEPEFreeTrainer_preprocess_batch
  | YOLOEVPTrainer => YOLOEVPTrainer_preprocess_batch
  end.
End Preprocess.

(** ** Vocabulary of the statements *)

(** [needle] occurs in [hay]. *)
Definition substring_of (needle hay : string) : Prop :=
  exists pre post, hay = pre +:+ needle +:+ post.

(** The frequency tables of the datasets that have one, in order. *)
Definition exposed_freqs {Feat} (datasets : list (Dataset Feat))
    : list (dict string Z) :=
  omap category_freq datasets.

Definition has_label (k : string) (freqs : list (dict string Z)) : bool :=
  existsb (fun c => match dict_get k c with Some _ => true | None => false end)
    freqs.

(** Sum of the counts of [k] over the tables. *)
Definition total_count (k : string) (freqs : list (dict string Z)) : Z :=
  fold_right (fun c acc => dict_get_default k 0 c + acc) 0 freqs.

(** The sources of a split of the configuration: what
    [v.get("yolo_data", [])] iterates over. *)
Definition yolo_sources (v : pyval) : result (list pyval) :=
  yolo_data <-? py_get v "yolo_data" (PList []) ;;
  py_iter yolo_data.

(** The datasets a split of the configuration resolves to. *)
Definition checked_entry {Feat} (api : DataAPI Feat) (v : pyval)
    : result (list pydict) :=
  sources <-? yolo_sources v ;;
  rmap (check_det_dataset api) sources.

(** All the sources of a configuration, in the order of its entries. *)
Definition config_sources (cfg : pydict) : list pyval :=
  flat_map (fun kv => match yolo_sources (snd kv) with
                      | inr l => l
                      | inl _ => []
                      end) cfg.


(** The last step of [build_dataset]: a concatenation for two datasets or
    more, the dataset itself otherwise. *)
Definition concat_or_single {Feat} (datasets : list (Dataset Feat))
    : result (DatasetObj Feat) :=
  if (1 <? length datasets)%nat then Ok (YOLOConcatDataset datasets)
  else r <-? list_item0 datasets ;; Ok (Plain r).

(** The grounding entries of a split: none when [grounding_data] is absent. *)
Definition grounding_entries (grounding_data : pyval) : list pyval :=
  match grounding_data with
  | PNone => []
  | _ => grounding_list grounding_data
  end.

Definition is_dict (v : pyval) : Prop := exists d, v = PDict d.

(** The world after [torch.load(p)]. *)
Definition loaded {Tok Feat} (p : Path) (w : World Tok Feat) : World Tok Feat :=
  {| files := files w; trace := trace w ++ [EvTorchLoad p] |}.

(** ** Concrete components used to run the model *)

Module Demo.

(** A text model with one token (the length) per text and one feature per
    token. *)
Definition tm : TextModel nat Z :=
  {| tokenize := map String.length;
     encode_text := map Z.of_nat |}.

Definition lvis : pydict :=
  [(KStr "path", PPath (true, ["datasets"; "lvis"]));
   (KStr "train", PStr "/datasets/lvis/train.txt");
   (KStr "val", PStr "/datasets/lvis/val.txt");
   (KStr "minival", PStr "minival.txt");
   (KStr "nc", PInt 1203);
   (KStr "names", PList [PStr "aerosol_can"; PStr "air_conditioner"])].

Definition coco : pydict :=
  [(KStr "path", PPath (true, ["datasets"; "coco"]));
   (KStr "train", PStr "/datasets/coco/train2017.txt");
   (KStr "val", PStr "/datasets/coco/val2017.txt");
   (KStr "nc", PInt 80);
   (KStr "names", PList [PStr "person"; PStr "bicycle"])].

Definition objects365 : pydict :=
  [(KStr "path", PPath (true, ["datasets"; "Objects365v1"]));
   (KStr "train", PStr "/datasets/Objects365v1/images/train");
   (KStr "val", PStr "/datasets/Objects365v1/images/val");
   (KStr "nc", PInt 365);
   (KStr "names", PList [PStr "Person"; PStr "Sneakers"])].

Definition detection : Dataset Z :=
  {| img_path := PStr "/datasets/Objects365v1/images/train";
     category_names := Some ({["Person"; "Sneakers"]} : gset string);
     category_freq := Some [("Person", 120); ("Sneakers", 60)];
     transforms := [ {| accepts_embeddings := true; embeddings := None |};
                     {| accepts_embeddings := false; embeddings := None |} ];
     num_samples := 3 |}.

Definition grounding : Dataset Z :=
  {| img_path := PStr "/datasets/flickr/images";
     category_names := Some ({["a dog"; "Sneakers"]} : gset string);
     category_freq := Some [("Sneakers", 40); ("a dog", 99)];
     transforms := [ {| accepts_embeddings := true; embeddings := None |} ];
     num_samples := 2 |}.

(** A dataset without category metadata. *)
Definition bare : Dataset Z :=
  {| img_path := PStr "/datasets/plain/images";
     category_names := None;
     category_freq := None;
     transforms := [];
     num_samples := 1 |}.

Definition api : DataAPI Z :=
  {| check_det_dataset := fun d =>
       match d with
       | PStr "lvis.yaml" => Ok lvis
       | PStr "coco.yaml" => Ok coco
       | PStr "Objects365v1.yaml" => Ok objects365
       | _ => Err FileNotFoundError
       end;
     build_yolo_dataset := fun _ _ _ _ => detection;
     build_grounding := fun _ _ _ _ => grounding |}.

Definition flickr : pyval :=
  PDict [(KStr "img_path", PStr "/datasets/flickr/images");
         (KStr "json_file", PStr "/datasets/flickr/annotations.json")].

(** A configuration in the shape of the published training recipes. *)
Definition data_yaml : pyval :=
  PDict [(KStr "train",
          PDict [(KStr "yolo_data", PList [PStr "Objects365v1.yaml"]);
                 (KStr "grounding_data", PList [flickr])]);
         (KStr "val", PDict [(KStr "yolo_data", PList [PStr "lvis.yaml"])])].

(** The same with two validation datasets. *)
Definition data_yaml_two_val : pyval :=
  PDict [(KStr "train", PDict [(KStr "yolo_data", PList [PStr "Objects365v1.yaml"])]);
         (KStr "val",
          PDict [(KStr "yolo_data", PList [PStr "lvis.yaml"; PStr "coco.yaml"])])].

(** A configuration without training data. *)
Definition data_yaml_no_train : pyval :=
  PDict [(KStr "val", PDict [(KStr "yolo_data", PList [PStr "lvis.yaml"])])].

Definition trainer (data_yaml : pyval) : Trainer :=
  {| args_data := data_yaml;
     args_train_pe_path := PStr "pe.pt";
     data := [];
     training_data := [];
     model_stride := None;
     device := "cpu" |}.

(** The trainer once [get_dataset] has indexed the training datasets. *)
Definition trained : Trainer :=
  {| args_data := data_yaml;
     args_train_pe_path := PStr "pe.pt";
     data := [(KStr "nc", PInt 1203)];
     training_data := [(KStr "/datasets/Objects365v1/images/train", objects365)];
     model_stride := Some 32;
     device := "cpu" |}.

Definition world0 : World nat Z := {| files := ∅; trace := [] |}.

Definition cache_path : Path := (true, ["datasets"; "pos_embeddings.pt"]).

(** A world whose cache file was written for another label set. *)
Definition world_stale : World nat Z :=
  {| files := {[ cache_path := [("cat", 3)] ]}; trace := [] |}.

End Demo.

(** ** Proof steps *)

(** Inversion of a successful sequence of steps. *)
Ltac rinv H :=
  repeat match type of H with
  | rbind ?r _ = inr _ =>
      let a := fresh "a" in
      let E := fresh "E" in
      destruct r as [?|a] eqn:E; [discriminate H | simpl in H]
  | rbind ?r _ = Ok _ =>
      let a := fresh "a" in
      let E := fresh "E" in
      destruct r as [?|a] eqn:E; [discriminate H | simpl in H]
  end.

(** One successful step of a sequence: name its value and its equation. *)
Ltac rstep H x E :=
  match type of H with
  | rbind ?r _ = _ =>
      destruct r as [?|x] eqn:E; [discriminate H | cbn [rbind] in H]
  end.

(** * Properties *)

(** ** Results *)

Lemma rmap_Forall2 {A B} (f : A -> result B) l ys :
  rmap f l = Ok ys -> Forall2 (fun x y => f x = Ok y) l ys.
Proof.
  revert ys. induction l as [|x xs IH]; simpl; intros ys H.
  - injection H as <-. constructor.
  - rinv H. injection H as <-. constructor; auto.
Qed.

(** ** Dictionaries *)

Section DictFacts.
Context {K : Type} `{EqDecision K} {V : Type}.
Implicit Types (d : dict K V) (k : K) (v : V).

Lemma dict_get_set k k' v d :
  dict_get k (dict_set k' v d) = if decide (k = k') then Some v else dict_get k d.
Proof.
  induction d as [|[x vx] rest IH]; simpl.
  - destruct (decide (k = k')); reflexivity.
  - destruct (decide (k' = x)) as [->|Hne]; simpl.
    + destruct (decide (k = x)); reflexivity.
    + rewrite IH. destruct (decide (k = x)) as [->|]; [|reflexivity].
      destruct (decide (x = k')); congruence.
Qed.

Lemma dict_get_set_eq k v d : dict_get k (dict_set k v d) = Some v.
Proof. rewrite dict_get_set. destruct (decide (k = k)); congruence. Qed.

Lemma dict_get_set_ne k k' v d :
  k <> k' -> dict_get k (dict_set k' v d) = dict_get k d.
Proof. intros. rewrite dict_get_set. destruct (decide (k = k')); congruence. Qed.

Lemma dict_keys_set k k' v d :
  In k (dict_keys (dict_set k' v d)) <-> k = k' \/ In k (dict_keys d).
Proof.
  unfold dict_keys. induction d as [|[x vx] rest IH]; simpl.
  - intuition.
  - destruct (decide (k' = x)) as [->|Hne]; simpl.
    + intuition.
    + rewrite IH. intuition.
Qed.

Lemma dict_wf_set k v d : dict_wf d -> dict_wf (dict_set k v d).
Proof.
  unfold dict_wf. induction d as [|[x vx] rest IH]; simpl; intros Hwf.
  - repeat constructor. intros [].
  - apply NoDup_cons_iff in Hwf as [Hx Hrest].
    destruct (decide (k = x)) as [->|Hne]; simpl.
    + constructor; assumption.
    + constructor; [|auto].
      intros Hin. apply (dict_keys_set x k v rest) in Hin as [->|Hin]; auto.
Qed.

Lemma dict_get_In k v d : dict_get k d = Some v -> In (k, v) d.
Proof.
  induction d as [|[x vx] rest IH]; simpl; [discriminate|].
  destruct (decide (k = x)) as [->|]; intros H.
  - injection H as ->. auto.
  - auto.
Qed.

Lemma dict_get_None k d : dict_get k d = None <-> ~ In k (dict_keys d).
Proof.
  unfold dict_keys. induction d as [|[x vx] rest IH]; simpl.
  - intuition.
  - destruct (decide (k = x)) as [->|]; [|rewrite IH]; intuition congruence.
Qed.

Lemma In_dict_get k v d : dict_wf d -> In (k, v) d -> dict_get k d = Some v.
Proof.
  unfold dict_wf, dict_keys.
  induction d as [|[x vx] rest IH]; simpl; intros Hwf Hin; [contradiction|].
  apply NoDup_cons_iff in Hwf as [Hx Hrest].
  destruct Hin as [Heq|Hin].
  - injection Heq as -> ->. destruct (decide (k = k)); congruence.
  - destruct (decide (k = x)) as [->|]; [|auto].
    exfalso. apply Hx. apply in_map_iff. exists (x, v). auto.
Qed.

Lemma dict_keys_update pairs d k :
  In k (dict_keys (dict_update pairs d)) <->
  In k (map fst pairs) \/ In k (dict_keys d).
Proof.
  unfold dict_update. revert d.
  induction pairs as [|[x vx] rest IH]; simpl; intros d.
  - intuition.
  - rewrite IH, dict_keys_set. intuition.
Qed.

Lemma dict_wf_update pairs d : dict_wf d -> dict_wf (dict_update pairs d).
Proof.
  unfold dict_update. revert d.
  induction pairs as [|[x vx] rest IH]; simpl; intros d Hwf; [assumption|].
  apply IH. apply dict_wf_set. assumption.
Qed.

Lemma dict_item_Ok k v d : dict_item k d = Ok v <-> dict_get k d = Some v.
Proof.
  unfold dict_item. destruct (dict_get k d); split; intros H;
    try discriminate; injection H as ->; reflexivity.
Qed.
End DictFacts.

(** ** Negative labels *)

Lemma get_neg_texts_In cf threshold k :
  In k (_get_neg_texts cf threshold) <->
  exists v, In (k, v) cf /\ threshold <= v.
Proof.
  unfold _get_neg_texts. rewrite in_map_iff. split.
  - intros [[k' v] [Hk Hin]]. simpl in Hk. subst k'.
    apply filter_In in Hin as [Hin Hv]. simpl in Hv.
    exists v. split; [assumption | lia].
  - intros [v [Hin Hv]]. exists (k, v). split; [reflexivity|].
    apply filter_In. split; [assumption | simpl; lia].
Qed.

(** C2: for a frequency table (a dictionary, so with distinct keys), the
    labels returned with threshold 100 are exactly those whose count is at
    least 100; a label whose count is below 100 is left out, 99 is left out
    and 100 is kept. *)
Theorem get_neg_texts_threshold (cf : dict string Z) (k : string) :
  dict_wf cf ->
  (In k (_get_neg_texts cf 100) <-> exists v, dict_get k cf = Some v /\ 100 <= v) /\
  (forall v, dict_get k cf = Some v -> v < 100 -> ~ In k (_get_neg_texts cf 100)) /\
  (dict_get k cf = Some 99 -> ~ In k (_get_neg_texts cf 100)) /\
  (dict_get k cf = Some 100 -> In k (_get_neg_texts cf 100)).
Proof.
  intros Hwf.
  assert (Hiff : In k (_get_neg_texts cf 100) <->
                 exists v, dict_get k cf = Some v /\ 100 <= v).
  { rewrite get_neg_texts_In. split; intros [v [H1 H2]]; exists v; split; auto.
    - apply In_dict_get; assumption.
    - apply dict_get_In; assumption. }
  assert (Hlow : forall v, dict_get k cf = Some v -> v < 100 ->
                           ~ In k (_get_neg_texts cf 100)).
  { intros v Hv Hlt Hin. apply Hiff in Hin as [v' [Hv' Hge]].
    rewrite Hv in Hv'. injection Hv' as <-. lia. }
  repeat split.
  - apply Hiff.
  - apply Hiff.
  - exact Hlow.
  - intros H. apply (Hlow 99 H). lia.
  - intros H. apply Hiff. exists 100. split; [assumption | lia].
Qed.

Lemma get_neg_texts_threshold_witness :
  dict_wf [("Person", 100); ("Sneakers", 99); ("a dog", 250)] /\
  In "Person" (_get_neg_texts [("Person", 100); ("Sneakers", 99); ("a dog", 250)] 100).
Proof.
  assert (Hwf : dict_wf [("Person", 100); ("Sneakers", 99); ("a dog", 250)]).
  { unfold dict_wf. simpl. repeat constructor; simpl; intuition discriminate. }
  split; [exact Hwf|].
  apply (get_neg_texts_threshold _ "Person" Hwf). reflexivity.
Defined.

(** ** Category frequencies *)

Lemma add_counts_get (items acc : dict string Z) k :
  dict_wf items ->
  dict_get k (add_counts items acc) =
  match dict_get k items with
  | Some v => Some (dict_get_default k 0 acc + v)
  | None => dict_get k acc
  end.
Proof.
  unfold add_counts, dict_wf, dict_keys. revert acc.
  induction items as [|[x vx] rest IH]; simpl; intros acc Hwf; [reflexivity|].
  apply NoDup_cons_iff in Hwf as [Hx Hrest].
  rewrite IH by assumption.
  destruct (decide (k = x)) as [->|Hne].
  - assert (Hnone : dict_get x rest = None) by (apply dict_get_None; exact Hx).
    rewrite Hnone, dict_get_set_eq. reflexivity.
  - unfold dict_get_default. rewrite dict_get_set_ne by assumption.
    reflexivity.
Qed.

Lemma add_counts_wf (items acc : dict string Z) :
  dict_wf acc -> dict_wf (add_counts items acc).
Proof.
  unfold add_counts. revert acc.
  induction items as [|[x vx] rest IH]; simpl; intros acc Hwf; [assumption|].
  apply IH, dict_wf_set, Hwf.
Qed.

Lemma total_count_absent k freqs :
  has_label k freqs = false -> total_count k freqs = 0.
Proof.
  induction freqs as [|c rest IH]; simpl; intros H; [reflexivity|].
  apply orb_false_iff in H as [Hc Hrest].
  unfold dict_get_default. destruct (dict_get k c); [discriminate|].
  rewrite IH by assumption. reflexivity.
Qed.

Section CategoryFreq.
Context {Feat : Type}.
Implicit Types (datasets : list (Dataset Feat)) (acc : dict string Z).

Lemma exposed_freqs_cons d datasets :
  exposed_freqs (d :: datasets) =
  match category_freq d with
  | Some c => c :: exposed_freqs datasets
  | None => exposed_freqs datasets
  end.
Proof. reflexivity. Qed.

Lemma sum_category_freq_acc datasets acc :
  Forall (fun d => forall c, category_freq d = Some c -> dict_wf c) datasets ->
  dict_wf acc ->
  exists table,
    sum_category_freq datasets acc = Ok table /\
    dict_wf table /\
    forall k,
      dict_get k table =
      if has_label k (exposed_freqs datasets)
      then Some (dict_get_default k 0 acc + total_count k (exposed_freqs datasets))
      else dict_get k acc.
Proof.
  revert acc.
  induction datasets as [|d rest IH]; intros acc Hwf Hacc.
  - exists acc. repeat split; auto.
  - apply Forall_cons_iff in Hwf as [Hd Hrest].
    rewrite exposed_freqs_cons. simpl sum_category_freq.
    unfold hasattr, getattr. destruct (category_freq d) as [c|] eqn:Hc; simpl.
    + destruct (IH (add_counts c acc) Hrest (add_counts_wf c acc Hacc))
        as [table [Hsum [Htable Hget]]].
      exists table. repeat split; auto.
      intros k. rewrite Hget. unfold dict_get_default at 1.
      rewrite (add_counts_get c acc k (Hd c eq_refl)).
      assert (Hc0 : dict_get_default k 0 c =
                    match dict_get k c with Some v => v | None => 0 end)
        by reflexivity.
      destruct (dict_get k c) as [v|]; simpl; rewrite Hc0.
      * destruct (has_label k (exposed_freqs rest)) eqn:Hl.
        -- f_equal. lia.
        -- rewrite (total_count_absent _ _ Hl). f_equal. lia.
      * destruct (has_label k (exposed_freqs rest)); reflexivity.
    + apply IH; assumption.
Qed.
End CategoryFreq.

Lemma sum_category_freq_skip {Feat} (ds1 ds2 : list (Dataset Feat)) d acc :
  category_freq d = None ->
  sum_category_freq (ds1 ++ d :: ds2) acc = sum_category_freq (ds1 ++ ds2) acc.
Proof.
  intros Hd. revert acc.
  induction ds1 as [|x rest IH]; simpl; intros acc.
  - unfold hasattr. rewrite Hd. reflexivity.
  - destruct (negb (hasattr category_freq x)); [apply IH|].
    destruct (getattr category_freq x); simpl; [reflexivity | apply IH].
Qed.

(** C7: the aggregated table exists whatever the datasets are (a dataset
    without [category_freq] raises nothing), it maps each label found in a
    dataset that has the attribute to the sum of its counts over those
    datasets, has no other label, and is unchanged when a dataset without
    the attribute is removed from the list. *)
Theorem category_freq_aggregation {Feat} (datasets : list (Dataset Feat)) :
  Forall (fun d => forall c, category_freq d = Some c -> dict_wf c) datasets ->
  exists table,
    sum_category_freq datasets [] = Ok table /\
    dict_wf table /\
    (forall k,
       dict_get k table =
       if has_label k (exposed_freqs datasets)
       then Some (total_count k (exposed_freqs datasets))
       else None) /\
    (forall ds1 d ds2,
       datasets = ds1 ++ d :: ds2 -> category_freq d = None ->
       sum_category_freq (ds1 ++ ds2) [] = Ok table).
Proof.
  intros Hwf.
  destruct (sum_category_freq_acc datasets [] Hwf) as [table [Hsum [Htable Hget]]].
  { constructor. }
  exists table. repeat split; auto.
  intros ds1 d ds2 -> Hd. rewrite <- Hsum. symmetry.
  apply sum_category_freq_skip. assumption.
Qed.

Lemma category_freq_aggregation_witness :
  exists table,
    sum_category_freq [Demo.detection; Demo.bare; Demo.grounding] [] = Ok table /\
    dict_get "Sneakers" table = Some 100 /\
    dict_get "a dog" table = Some 99.
Proof.
  assert (Hwf : Forall (fun d : Dataset Z =>
                          forall c, category_freq d = Some c -> dict_wf c)
                  [Demo.detection; Demo.bare; Demo.grounding]).
  { repeat constructor; simpl; intros c Hc; try discriminate;
      injection Hc as <-; unfold dict_wf; simpl;
      repeat constructor; simpl; intuition discriminate. }
  destruct (category_freq_aggregation _ Hwf) as [table [Hsum [_ [Hget _]]]].
  exists table. split; [exact Hsum|].
  split; rewrite Hget; reflexivity.
Defined.

(** ** Tensors *)

Lemma chunks_from_concat {A} (fuel n : nat) (t : list A) :
  (0 < n)%nat -> (length t <= fuel)%nat -> concat (chunks_from fuel n t) = t.
Proof.
  intros Hn. revert t.
  induction fuel as [|fuel IH]; intros t Hlen.
  - destruct t; simpl in *; [reflexivity | lia].
  - destruct t as [|a t']; [reflexivity|].
    change (chunks_from (S fuel) n (a :: t'))
      with (firstn n (a :: t') :: chunks_from fuel n (skipn n (a :: t'))).
    simpl concat. rewrite IH.
    + apply firstn_skipn.
    + rewrite length_skipn. simpl in *. lia.
Qed.

Lemma tensor_split_pos {A} (t : list A) (b : Z) :
  0 < b ->
  exists chunks,
    tensor_split t b = Ok chunks /\ concat chunks = t /\ chunks <> [].
Proof.
  intros Hb. unfold tensor_split.
  destruct (b <? 0) eqn:Hneg; [lia|].
  destruct t as [|a t'].
  - exists [[]]. repeat split. discriminate.
  - destruct (b =? 0) eqn:Hz; [lia|].
    exists (chunks_from (length (a :: t')) (Z.to_nat b) (a :: t')).
    repeat split.
    + apply chunks_from_concat; [lia | reflexivity].
    + simpl. discriminate.
Qed.

Lemma tensor_split_nonempty {A} (t : list A) (b : Z) chunks :
  tensor_split t b = Ok chunks -> chunks <> [].
Proof.
  unfold tensor_split.
  destruct (b <? 0); [discriminate|].
  destruct t as [|a t'].
  - intros H. injection H as <-. discriminate.
  - destruct (b =? 0); [discriminate|].
    intros H. injection H as <-. simpl. discriminate.
Qed.

Lemma map_fst_combine_same {A B} (l : list A) (l' : list B) :
  length l' = length l -> map fst (combine l l') = l.
Proof.
  revert l'. induction l as [|x xs IH]; intros [|y ys]; simpl; intros H;
    try reflexivity; try discriminate.
  f_equal. apply IH. congruence.
Qed.

Lemma dict_keys_comprehension {V} (texts : list string) (feats : list V) k :
  length feats = length texts ->
  In k (dict_keys (dict_update (combine texts feats) [])) <-> In k texts.
Proof.
  intros Hlen. rewrite dict_keys_update, map_fst_combine_same by assumption.
  simpl. intuition.
Qed.

(** ** Embedding cache *)

Section EmbeddingFacts.
Context {Tok Feat : Type}.
Variable tm : TextModel Tok Feat.
Implicit Types (w : World Tok Feat) (p : Path) (texts : list string).

Lemma mmap_encode_batch (batches : list (list Tok)) w :
  mmap (encode_batch tm) batches w =
  (Ok (map (encode_text tm) batches),
   {| files := files w; trace := trace w ++ map EvEncodeText batches |}).
Proof.
  revert w. induction batches as [|b rest IH]; intros w.
  - destruct w. simpl. unfold ret. rewrite app_nil_r. reflexivity.
  - simpl. unfold bind at 1. unfold encode_batch at 1, bind, emit, ret. simpl.
    unfold bind in IH. rewrite IH. simpl.
    rewrite <- app_assoc. reflexivity.
Qed.

Lemma encode_rows (chunks : list (list Tok)) :
  (forall toks, length (encode_text tm toks) = length toks) ->
  length (concat (map (encode_text tm) chunks)) = length (concat chunks).
Proof.
  intros Hrows. induction chunks as [|c rest IH]; simpl; [reflexivity|].
  rewrite !length_app, Hrows, IH. reflexivity.
Qed.

Lemma generate_cache_hit texts batch dev p w stored :
  files w !! p = Some stored ->
  generate_data_embeddings tm texts batch dev p w = (Ok stored, loaded p w).
Proof.
  intros Hhit. unfold generate_data_embeddings, bind, exists_file. cbv beta.
  rewrite bool_decide_eq_true_2 by eauto.
  unfold Ok. cbv beta iota. unfold torch_load. rewrite Hhit. reflexivity.
Qed.

(** The cache-miss path, step by step. *)
Lemma generate_cache_miss texts batch dev p w :
  files w !! p = None ->
  generate_data_embeddings tm texts batch dev p w =
  let w1 := {| files := files w;
               trace := (trace w ++ [EvBuildTextModel "mobileclip:blt" dev])
                        ++ [EvTokenize texts] |} in
  match (match batch with
         | Some b => tensor_split (tokenize tm texts) b
         | None => Err TypeError
         end) with
  | inl e => (inl e, w1)
  | inr batches =>
      let txt_map :=
        dict_update (combine texts (concat (map (encode_text tm) batches))) [] in
      (Ok txt_map,
       {| files := <[p := txt_map]> (files w);
          trace := (trace w1 ++ map EvEncodeText batches) ++ [EvTorchSave p] |})
  end.
Proof.
  intros Hmiss. unfold generate_data_embeddings, bind at 1, exists_file.
  cbv beta.
  rewrite bool_decide_eq_false_2 by (rewrite Hmiss; intros [? ?]; discriminate).
  unfold Ok at 1. cbv beta iota.
  unfold bind at 1, emit at 1. unfold bind at 1, emit at 1.
  unfold bind at 1, lift at 1. simpl.
  destruct (match batch with
            | Some b => tensor_split (tokenize tm texts) b
            | None => Err TypeError
            end) as [e|batches] eqn:Hsplit; [reflexivity|].
  unfold bind at 1. rewrite mmap_encode_batch.
  unfold bind at 1, lift at 1, torch_cat.
  assert (Hne : batches <> []).
  { destruct batch; [|discriminate]. eapply tensor_split_nonempty; eassumption. }
  destruct batches as [|b0 rest]; [congruence|].
  reflexivity.
Qed.

Lemma generate_persists texts batch dev p w m1 w1 :
  generate_data_embeddings tm texts batch dev p w = (Ok m1, w1) ->
  files w1 !! p = Some m1.
Proof.
  destruct (files w !! p) as [stored|] eqn:Hp.
  - rewrite (generate_cache_hit _ _ _ _ _ _ Hp). intros H.
    injection H as <- <-. exact Hp.
  - rewrite (generate_cache_miss _ _ _ _ _ Hp). cbv zeta.
    destruct (match batch with
              | Some b => tensor_split (tokenize tm texts) b
              | None => Err TypeError
              end) as [e|batches]; [discriminate|].
    intros H. injection H as <- <-. simpl. apply lookup_insert_eq.
Qed.

Lemma generate_succeeds texts b dev p w :
  0 < b ->
  exists m w', generate_data_embeddings tm texts (Some b) dev p w = (Ok m, w').
Proof.
  intros Hb. destruct (files w !! p) as [stored|] eqn:Hp.
  - rewrite (generate_cache_hit _ _ _ _ _ _ Hp). eauto.
  - rewrite (generate_cache_miss _ _ _ _ _ Hp). cbv zeta.
    destruct (tensor_split_pos (tokenize tm texts) b Hb) as [chunks [-> _]].
    eauto.
Qed.
End EmbeddingFacts.

(** C1: when the cache file exists, every call returns the stored mapping
    as it is, whatever the labels and the batch size; the only thing done
    to the world is the load (no text model is built, nothing is tokenized
    or encoded, the file is unchanged).  If the file is there because an
    earlier call with this path returned [m1], the stored mapping is [m1],
    so the second call returns what the first one did. *)
Theorem generate_data_embeddings_cache_hit {Tok Feat} (tm : TextModel Tok Feat)
    (p : Path) (w : World Tok Feat) (stored : dict string Feat) :
  files w !! p = Some stored ->
  (forall texts batch dev,
     generate_data_embeddings tm texts batch dev p w = (Ok stored, loaded p w)) /\
  files (loaded p w) = files w /\
  trace (loaded p w) = trace w ++ [EvTorchLoad p] /\
  (forall texts0 batch0 dev0 w0 m1,
     generate_data_embeddings tm texts0 batch0 dev0 p w0 = (Ok m1, w) ->
     stored = m1).
Proof.
  intros Hhit. repeat split.
  - intros. apply generate_cache_hit. assumption.
  - intros texts0 batch0 dev0 w0 m1 Hfirst.
    apply generate_persists in Hfirst. congruence.
Qed.

Lemma generate_data_embeddings_cache_hit_witness :
  fst (generate_data_embeddings Demo.tm ["a dog"; "Person"] None "cpu"
         Demo.cache_path
         (snd (generate_data_embeddings Demo.tm ["Sneakers"; "Person"] (Some 16)
                 "cpu" Demo.cache_path Demo.world0)))
  = Ok [("Sneakers", 8); ("Person", 6)].
Proof.
  assert (Hhit : files (snd (generate_data_embeddings Demo.tm ["Sneakers"; "Person"]
                               (Some 16) "cpu" Demo.cache_path Demo.world0))
                 !! Demo.cache_path = Some [("Sneakers", 8); ("Person", 6)]).
  { vm_compute. reflexivity. }
  destruct (generate_data_embeddings_cache_hit Demo.tm _ _ _ Hhit) as [Hcall _].
  rewrite Hcall. reflexivity.
Defined.

(** C6, as stated, fails on a cache hit: the file written for the label
    [cat] is returned for the label set [dog]. *)
Lemma generate_data_embeddings_stale_keys :
  fst (generate_data_embeddings Demo.tm ["dog"] (Some 16) "cpu"
         Demo.cache_path Demo.world_stale) = Ok [("cat", 3)] /\
  ~ (forall k, In k (dict_keys [("cat", 3)]) <-> In k ["dog"]).
Proof.
  split.
  - rewrite (generate_cache_hit Demo.tm _ _ _ Demo.cache_path Demo.world_stale
               [("cat", 3)]); [reflexivity|].
    apply lookup_singleton_eq.
  - intros H. destruct (H "dog") as [_ Hdog].
    destruct Hdog as [Heq|[]]; [left; reflexivity | discriminate Heq].
Qed.

(** C6 amended: on the cache-miss path, with a positive batch size and a
    text model giving one token row per label and one feature row per token
    row, the call returns a mapping whose keys are exactly the labels.  It
    is built by tokenizing all labels, splitting the tokens into batches
    that together are the tokens in order, encoding each batch, joining the
    results in order and pairing labels with feature rows; it is written
    to the cache path before it is returned. *)
Theorem generate_data_embeddings_miss_keys {Tok Feat} (tm : TextModel Tok Feat)
    (texts : list string) (b : Z) (dev : string) (p : Path)
    (w : World Tok Feat) :
  text_model_rows tm ->
  files w !! p = None ->
  0 < b ->
  exists batches m w',
    tensor_split (tokenize tm texts) b = Ok batches /\
    concat batches = tokenize tm texts /\
    generate_data_embeddings tm texts (Some b) dev p w = (Ok m, w') /\
    m = dict_update (combine texts (concat (map (encode_text tm) batches))) [] /\
    (forall k, In k (dict_keys m) <-> In k texts) /\
    dict_wf m /\
    files w' = <[p := m]> (files w) /\
    trace w' = trace w ++ [EvBuildTextModel "mobileclip:blt" dev; EvTokenize texts]
                 ++ map EvEncodeText batches ++ [EvTorchSave p].
Proof.
  intros [Htok Henc] Hmiss Hb.
  destruct (tensor_split_pos (tokenize tm texts) b Hb) as [batches [Hsplit [Hcat _]]].
  exists batches. eexists. eexists.
  split; [exact Hsplit|]. split; [exact Hcat|].
  split.
  { rewrite (generate_cache_miss tm _ _ _ _ _ Hmiss). cbv zeta.
    rewrite Hsplit. reflexivity. }
  split; [reflexivity|].
  split.
  { intros k. apply dict_keys_comprehension.
    rewrite encode_rows, Hcat, Htok by assumption. reflexivity. }
  split.
  { apply dict_wf_update. constructor. }
  split; [reflexivity|].
  simpl. rewrite <- !app_assoc. reflexivity.
Qed.

Lemma generate_data_embeddings_miss_keys_witness :
  exists m w',
    generate_data_embeddings Demo.tm ["Sneakers"; "Person"; "a dog"] (Some 2)
      "cpu" Demo.cache_path Demo.world0 = (Ok m, w') /\
    (forall k, In k (dict_keys m) <-> In k ["Sneakers"; "Person"; "a dog"]).
Proof.
  assert (Hrows : text_model_rows Demo.tm).
  { split; intros l; simpl; apply length_map. }
  assert (Hmiss : files Demo.world0 !! Demo.cache_path = None).
  { apply lookup_empty. }
  assert (Hb : 0 < 2) by lia.
  destruct (generate_data_embeddings_miss_keys Demo.tm
              ["Sneakers"; "Person"; "a dog"] 2 "cpu" Demo.cache_path
              Demo.world0 Hrows Hmiss Hb)
    as [batches [m [w' [_ [_ [Hgen [_ [Hkeys _]]]]]]]].
  exists m, w'. split; [exact Hgen | exact Hkeys].
Defined.

(** ** Model construction *)

(** C8: with label count [n] in the data descriptor, [YOLOETrainer] calls
    the model constructor with [min(n, 80)] and [YOLOEPETrainer] with [n];
    the classes that inherit [get_model] do the same. *)
Theorem get_model_label_count (RANK : Z) (self : Trainer) (cfg weights : pyval)
    (verbose : bool) (n : Z) :
  dict_get (KStr "nc") (data self) = Some (PInt n) ->
  (forall c, model_cfg cfg = Ok c ->
     exists m pe,
       YOLOETrainer_get_model RANK self cfg weights verbose = Ok m /\
       nc (ctor m) = PInt (Z.min n 80) /\
       YOLOEPETrainer_get_model RANK self cfg weights verbose = Ok pe /\
       nc (ctor pe) = PInt n /\
       yaml_cfg (ctor m) = c /\ yaml_cfg (ctor pe) = c /\
       ch (ctor m) = 3 /\ ch (ctor pe) = 3) /\
  get_model YOLOETrainer = YOLOETrainer_get_model /\
  get_model YOLOETrainerFromScratch = YOLOETrainer_get_model /\
  get_model YOLOEVPTrainer = YOLOETrainer_get_model /\
  get_model YOLOEPETrainer = YOLOEPETrainer_get_model /\
  get_model YOLOEPEFreeTrainer = YOLOEPETrainer_get_model.
Proof.
  intros Hnc. split; [|repeat split].
  intros c Hc.
  unfold YOLOETrainer_get_model, YOLOEPETrainer_get_model, dict_item.
  rewrite Hc, Hnc. simpl.
  eexists. eexists. split; [reflexivity|]. split.
  { simpl. destruct (80 <? n) eqn:Hcmp; f_equal; lia. }
  repeat split.
Qed.

Lemma get_model_label_count_witness :
  exists m pe,
    YOLOETrainer_get_model (-1)
      {| args_data := PNone; args_train_pe_path := PStr "pe.pt";
         data := [(KStr "nc", PInt 1203)]; training_data := [];
         model_stride := None; device := "cpu" |}
      (PStr "yoloe-v8s.yaml") PNone true = Ok m /\
    nc (ctor m) = PInt 80 /\
    YOLOEPETrainer_get_model (-1)
      {| args_data := PNone; args_train_pe_path := PStr "pe.pt";
         data := [(KStr "nc", PInt 1203)]; training_data := [];
         model_stride := None; device := "cpu" |}
      (PStr "yoloe-v8s.yaml") PNone true = Ok pe /\
    nc (ctor pe) = PInt 1203.
Proof.
  destruct (get_model_label_count (-1)
              {| args_data := PNone; args_train_pe_path := PStr "pe.pt";
                 data := [(KStr "nc", PInt 1203)]; training_data := [];
                 model_stride := None; device := "cpu" |}
              (PStr "yoloe-v8s.yaml") PNone true 1203 eq_refl) as [H _].
  destruct (H (PStr "yoloe-v8s.yaml") eq_refl)
    as [m [pe [Hm [Hnc [Hpe [Hncpe _]]]]]].
  exists m, pe. repeat split; assumption.
Defined.

(** ** The monad *)

Section MonadFacts.
Context {Tok Feat : Type}.
Implicit Types (w : World Tok Feat).

Lemma bind_lift {A B} (r : result A) (f : A -> M (Tok:=Tok) (Feat:=Feat) B) w :
  bind (lift r) f w =
  match r with
  | inl e => (inl e, w)
  | inr a => f a w
  end.
Proof. destruct r; reflexivity. Qed.

Lemma bind_Ok_inv {A B} (m : M (Tok:=Tok) (Feat:=Feat) A) (f : A -> M B) w b w' :
  bind m f w = (Ok b, w') ->
  exists a w1, m w = (Ok a, w1) /\ f a w1 = (Ok b, w').
Proof.
  unfold bind. destruct (m w) as [[e|a] w1]; [discriminate|]. eauto.
Qed.
End MonadFacts.

(** ** Dataset assembly *)

Section AssemblyFacts.
Context {Tok Feat : Type}.
Variable tm : TextModel Tok Feat.
Variable api : DataAPI Feat.
Implicit Types (w : World Tok Feat) (datasets : list (Dataset Feat)).

Lemma union_category_names_total datasets acc :
  exists names, union_category_names datasets acc = Ok names.
Proof.
  revert acc. induction datasets as [|d rest IH]; intros acc; simpl; [eauto|].
  unfold hasattr, getattr. destruct (category_names d); simpl; apply IH.
Qed.

Lemma sum_category_freq_total datasets acc :
  exists table, sum_category_freq datasets acc = Ok table.
Proof.
  revert acc. induction datasets as [|d rest IH]; intros acc; simpl; [eauto|].
  unfold hasattr, getattr. destruct (category_freq d); simpl; apply IH.
Qed.

Lemma sample_order_inject pos neg datasets :
  imap (fun i d => map (pair i) (seq 0 (num_samples d)))
    (map (inject_embeddings pos neg) datasets) =
  imap (fun i d => map (pair i) (seq 0 (num_samples d))) datasets.
Proof.
  assert (H : forall (g : nat -> nat),
             imap (fun i d => map (pair (g i)) (seq 0 (num_samples d)))
               (map (inject_embeddings pos neg) datasets) =
             imap (fun i d => map (pair (g i)) (seq 0 (num_samples d))) datasets).
  { induction datasets as [|d rest IH]; intros g; simpl; [reflexivity|].
    f_equal. apply (IH (fun i => g (S i))). }
  apply (H (fun i => i)).
Qed.
End AssemblyFacts.

(** C3: in train mode, with the datasets built from the entries of the path
    list in order, a call that returns gives the single dataset itself when
    there is one, and a concatenation of all of them, in the order of the
    path list, when there are two or more; the embeddings have been given
    to the transforms that take them.  The samples come in the order of the
    sources.  With a positive batch size and a first dataset that has an
    image path, the call does return. *)
Theorem build_dataset_train {Tok Feat} (tm : TextModel Tok Feat)
    (api : DataAPI Feat) (self : Trainer) (img_paths : pyval)
    (batch : option Z) (sources : list pyval) (datasets : list (Dataset Feat))
    (w : World Tok Feat) :
  py_iter img_paths = Ok sources ->
  rmap (build_source api self batch (stride_of self)) sources = Ok datasets ->
  Forall2 (fun src d => build_source api self batch (stride_of self) src = Ok d)
    sources datasets /\
  (forall obj w',
     build_dataset tm api self img_paths "train" batch w = (Ok obj, w') ->
     exists pos neg,
       constituents obj = map (inject_embeddings pos neg) datasets /\
       (forall d, datasets = [d] -> obj = Plain (inject_embeddings pos neg d)) /\
       ((2 <= length datasets)%nat ->
        obj = YOLOConcatDataset (map (inject_embeddings pos neg) datasets)) /\
       sample_order obj =
       concat (imap (fun i d => map (pair i) (seq 0 (num_samples d))) datasets)) /\
  (forall b first dir,
     batch = Some b -> 0 < b ->
     head datasets = Some first -> py_Path (img_path first) = Ok dir ->
     exists obj w',
       build_dataset tm api self img_paths "train" batch w = (Ok obj, w')).
Proof.
  intros Hiter Hrmap.
  destruct (union_category_names_total datasets ∅) as [names Hnames].
  destruct (sum_category_freq_total datasets []) as [table Htable].
  assert (Hrun : build_dataset tm api self img_paths "train" batch w =
    match list_item0 datasets with
    | inl e => (inl e, w)
    | inr first =>
        bind (lift (py_Path (img_path first))) (fun dir =>
          pos <- generate_data_embeddings tm (elements names) batch (device self)
                   (Path_join (Path_parent dir) (Path_of_string "pos_embeddings.pt")) ;;
          neg <- generate_data_embeddings tm (_get_neg_texts table 100) batch
                   (device self)
                   (Path_join (Path_parent dir) (Path_of_string "neg_embeddings.pt")) ;;
          if (1 <? length (map (inject_embeddings pos neg) datasets))%nat
          then ret (YOLOConcatDataset (map (inject_embeddings pos neg) datasets))
          else lift (r <-? list_item0 (map (inject_embeddings pos neg) datasets) ;;
                     Ok (Plain r))) w
    end).
  { unfold build_dataset. rewrite String.eqb_refl. cbn [negb].
    rewrite bind_lift, Hiter. cbv beta iota delta [Ok].
    rewrite bind_lift. unfold Ok in Hrmap. rewrite Hrmap. cbv beta iota.
    rewrite bind_lift. unfold Ok in Hnames. rewrite Hnames. cbv beta iota.
    rewrite bind_lift. unfold Ok in Htable. rewrite Htable. cbv beta iota.
    rewrite bind_lift. reflexivity. }
  split; [apply rmap_Forall2; assumption|]. split.
  - intros obj w' H. rewrite Hrun in H.
    destruct datasets as [|d0 rest]; [discriminate H|]. simpl list_item0 in H.
    cbv beta iota delta [Ok] in H. rewrite bind_lift in H.
    destruct (py_Path (img_path d0)) as [e|dir]; [discriminate H|].
    apply bind_Ok_inv in H as [pos [w1 [_ H]]].
    apply bind_Ok_inv in H as [neg [w2 [_ H]]].
    exists pos, neg. destruct rest as [|d1 rest].
    + simpl in H. unfold lift, Ok in H. injection H as <- _.
      simpl. repeat split.
      * intros d Hd. injection Hd as <-. reflexivity.
      * intros Hlen. lia.
      * rewrite app_nil_r. reflexivity.
    + simpl in H. unfold ret, Ok in H. injection H as <- _.
      repeat split.
      * intros d Hd. discriminate Hd.
      * unfold sample_order.
        exact (f_equal (@concat _) (sample_order_inject pos neg (d0 :: d1 :: rest))).
  - intros b first dir -> Hb Hfirst Hdir. rewrite Hrun.
    destruct datasets as [|d0 rest]; [discriminate Hfirst|].
    injection Hfirst as ->. simpl list_item0. cbv beta iota delta [Ok].
    rewrite bind_lift. unfold Ok in Hdir. rewrite Hdir.
    unfold bind.
    destruct (generate_succeeds tm (elements names) b (device self)
                (Path_join (Path_parent dir) (Path_of_string "pos_embeddings.pt"))
                w Hb) as [pos [w1 Hpos]].
    unfold Ok in Hpos. rewrite Hpos.
    destruct (generate_succeeds tm (_get_neg_texts table 100) b (device self)
                (Path_join (Path_parent dir) (Path_of_string "neg_embeddings.pt"))
                w1 Hb) as [neg [w2 Hneg]].
    unfold Ok in Hneg. rewrite Hneg.
    destruct rest as [|d1 rest]; simpl; unfold lift, ret; eauto.
Qed.

Lemma build_dataset_train_witness :
  exists obj w' pos neg,
    build_dataset Demo.tm Demo.api Demo.trained
      (PList [PStr "/datasets/Objects365v1/images/train"; Demo.flickr])
      "train" (Some 16) Demo.world0 = (Ok obj, w') /\
    obj = YOLOConcatDataset
            [inject_embeddings pos neg Demo.detection;
             inject_embeddings pos neg Demo.grounding].
Proof.
  destruct (build_dataset_train Demo.tm Demo.api Demo.trained
              (PList [PStr "/datasets/Objects365v1/images/train"; Demo.flickr])
              (Some 16)
              [PStr "/datasets/Objects365v1/images/train"; Demo.flickr]
              [Demo.detection; Demo.grounding] Demo.world0 eq_refl eq_refl)
    as [_ [Hshape Hruns]].
  destruct (Hruns 16 Demo.detection
              (true, ["datasets"; "Objects365v1"; "images"; "train"])
              eq_refl eq_refl eq_refl eq_refl) as [obj [w' Hobj]].
  destruct (Hshape obj w' Hobj) as [pos [neg [_ [_ [Hconcat _]]]]].
  exists obj, w', pos, neg. split; [exact Hobj|].
  apply Hconcat. simpl. lia.
Defined.

(** ** Dataset paths *)

Section GetDatasetFacts.
Context {Tok Feat : Type}.
Variable api : DataAPI Feat.
Implicit Types (w : World Tok Feat) (cfg : pydict).

Lemma mmap_check_det (l : list pyval) w r w' :
  mmap (check_det (Tok:=Tok) api) l w = (r, w') ->
  r = rmap (check_det_dataset api) l.
Proof.
  revert w r w'. induction l as [|x xs IH]; simpl; intros w r w' H.
  - injection H as <- _. reflexivity.
  - unfold bind at 1 in H. unfold check_det at 1, bind, emit, lift in H.
    simpl in H.
    destruct (check_det_dataset api x) as [e|d]; simpl.
    + injection H as <- _. reflexivity.
    + match type of H with
      | context [mmap ?f xs ?w0] =>
          destruct (mmap f xs w0) as [r0 w0'] eqn:Hrest
      end.
      apply IH in Hrest. subst r0.
      destruct (rmap (check_det_dataset api) xs); simpl;
        injection H as <- _; reflexivity.
Qed.

Lemma resolve_entry_checked (v : pyval) w r w' :
  resolve_entry (Tok:=Tok) api v w = (r, w') -> r = checked_entry api v.
Proof.
  unfold resolve_entry, checked_entry, yolo_sources. rewrite bind_lift.
  destruct (py_get v "yolo_data" (PList [])) as [e|yd]; simpl.
  - intros H. injection H as <- _. reflexivity.
  - rewrite bind_lift. destruct (py_iter yd) as [e|l]; simpl.
    + intros H. injection H as <- _. reflexivity.
    + apply mmap_check_det.
Qed.

(** What the checked configuration holds under a key. *)
Lemma resolve_config_get cfg w data w' k :
  resolve_config (Tok:=Tok) api cfg w = (Ok data, w') ->
  match dict_get k cfg with
  | Some v => exists ds, checked_entry api v = Ok ds /\ dict_get k data = Some ds
  | None => dict_get k data = None
  end.
Proof.
  unfold resolve_config. revert w data w'.
  induction cfg as [|[x v] rest IH]; simpl; intros w data w' H.
  - injection H as <- _. reflexivity.
  - apply bind_Ok_inv in H as [[x' ds] [w1 [Hx H]]].
    apply bind_Ok_inv in H as [data' [w2 [Hrest H]]].
    injection H as <- _.
    apply bind_Ok_inv in Hx as [ds' [w0 [Hentry Hx]]].
    injection Hx as <- <- _.
    apply resolve_entry_checked in Hentry.
    specialize (IH _ _ _ Hrest). simpl.
    destruct (decide (k = x)) as [->|Hne].
    + exists ds'. split; [symmetry; exact Hentry | reflexivity].
    + exact IH.
Qed.

(** [get_dataset] on a dictionary: the two assertions, then the checks. *)
Lemma get_dataset_eq (self : Trainer) cfg w :
  args_data self = PDict cfg ->
  get_dataset api self w =
  if negb (truthy (dict_get_default (KStr "train") (PBool false) cfg))
  then (Err (AssertionError "train dataset not found"), w)
  else if negb (truthy (dict_get_default (KStr "val") (PBool false) cfg))
  then (Err (AssertionError "validation dataset not found"), w)
  else
    match resolve_config api cfg w with
    | (inl e, w') => (inl e, w')
    | (inr data, w') => (assemble self cfg data, w')
    end.
Proof.
  intros Hcfg. unfold get_dataset. rewrite Hcfg. simpl py_get.
  rewrite bind_lift. cbv beta iota delta [Ok].
  unfold py_assert, rassert.
  destruct (truthy (dict_get_default (KStr "train") (PBool false) cfg));
    [|reflexivity].
  unfold bind at 1, lift at 1. cbv beta iota delta [Ok].
  rewrite bind_lift. cbv beta iota delta [Ok].
  destruct (truthy (dict_get_default (KStr "val") (PBool false) cfg));
    [|reflexivity].
  unfold bind at 1, lift at 1. cbv beta iota delta [Ok].
  simpl py_items. rewrite bind_lift. cbv beta iota delta [Ok].
  unfold bind, lift.
  destruct (resolve_config api cfg w) as [[e|data] w']; reflexivity.
Qed.
End GetDatasetFacts.

(** C5: when the configuration has no [train] key, or a value there that is
    false, [get_dataset] raises the assertion error for the missing train
    dataset and leaves the world as it was: no dataset has been checked. *)
Theorem get_dataset_no_train {Tok Feat} (api : DataAPI Feat) (self : Trainer)
    (cfg : pydict) (w : World Tok Feat) :
  args_data self = PDict cfg ->
  (dict_get (KStr "train") cfg = None \/
   exists v, dict_get (KStr "train") cfg = Some v /\ truthy v = false) ->
  get_dataset api self w = (Err (AssertionError "train dataset not found"), w) /\
  forall d,
    ~ In (EvCheckDetDataset d)
        (skipn (length (trace w)) (trace (snd (get_dataset api self w)))).
Proof.
  intros Hcfg Htrain.
  assert (Hrun : get_dataset api self w =
                 (Err (AssertionError "train dataset not found"), w)).
  { rewrite (get_dataset_eq api self cfg w Hcfg).
    unfold dict_get_default.
    destruct Htrain as [-> | [v [-> Hv]]]; simpl; [reflexivity|].
    rewrite Hv. reflexivity. }
  split; [exact Hrun|].
  intros d. rewrite Hrun. simpl. rewrite skipn_all. intros [].
Qed.

Lemma get_dataset_no_train_witness :
  get_dataset (Tok:=nat) Demo.api (Demo.trainer Demo.data_yaml_no_train)
    Demo.world0
  = (Err (AssertionError "train dataset not found"), Demo.world0).
Proof.
  apply (get_dataset_no_train Demo.api (Demo.trainer Demo.data_yaml_no_train)
           [(KStr "val", PDict [(KStr "yolo_data", PList [PStr "lvis.yaml"])])]
           Demo.world0 eq_refl).
  left. reflexivity.
Defined.

Lemma rmap_singleton {A B} (f : A -> result B) (x : A) (ys : list B) :
  rmap f [x] = Ok ys -> exists y, f x = Ok y /\ ys = [y].
Proof.
  simpl. intros H. rstep H y E. injection H as <-. eauto.
Qed.

Lemma rmap_singleton_inv {A B} (f : A -> result B) (l : list A) (y : B) :
  rmap f l = Ok [y] -> exists x, l = [x] /\ f x = Ok y.
Proof.
  intros H. pose proof (rmap_Forall2 _ _ _ H) as HF.
  inversion HF as [|x y' l' ys' Hx Hrest]; subst.
  inversion Hrest; subst. eauto.
Qed.

Lemma resolve_minival_other (d d' : pydict) (k : string) :
  resolve_minival d = Ok d' -> k <> "minival" ->
  dict_get (KStr k) d' = dict_get (KStr k) d.
Proof.
  unfold resolve_minival. intros H Hk.
  assert (Hset : forall v, dict_get (KStr k) (dict_set (KStr "minival") v d) =
                           dict_get (KStr k) d).
  { intros v. apply dict_get_set_ne. congruence. }
  destruct (dict_get_default (KStr "minival") PNone d);
    try (injection H as <-; reflexivity);
    rstep H root E1; rstep H joined E2; injection H as <-; apply Hset.
Qed.

(** What an accepted configuration looks like once its datasets are
    checked: one validation dataset [dv], the split chosen from it, and
    where the parts of the result come from. *)
Lemma assemble_Ok (self self' : Trainer) (cfg : pydict)
    (checked : dict pykey (list pydict)) (train val : pyval) :
  assemble self cfg checked = Ok (self', (train, val)) ->
  exists dv dv' split,
    dict_get (KStr "val") checked = Some [dv] /\
    val_split_of dv = Ok split /\
    resolve_minival dv = Ok dv' /\
    dict_get (KStr split) dv' = Some val /\
    (exists nc names path,
       dict_get (KStr "nc") dv = Some nc /\
       dict_get (KStr "names") dv = Some names /\
       dict_get (KStr "path") dv = Some path /\
       dict_get (KStr "nc") (data self') = Some nc /\
       dict_get (KStr "names") (data self') = Some names /\
       dict_get (KStr "path") (data self') = Some path).
Proof.
  unfold assemble. intros H.
  rstep H vdata Eval.
  unfold rassert in H at 1.
  destruct (length vdata =? 1)%nat eqn:Hlen; [|discriminate H].
  cbn [rbind] in H. apply Nat.eqb_eq in Hlen.
  destruct vdata as [|dv [|? ?]]; try discriminate Hlen.
  cbn [list_item0 rbind Ok] in H.
  rstep H vsplit Esplit.
  rstep H vdata' Emin.
  apply rmap_singleton in Emin as [dv' [Emin ->]].
  rstep H vtrains Etrain.
  rstep H vvals Evals.
  cbn [list_item0 rbind Ok] in H.
  rstep H vnc Enc. rstep H vnames Enames. rstep H vpath Epath.
  rstep H vtd Etd. rstep H vidx Eidx. rstep H vval0 Eval0.
  injection H as <- <- <-.
  exists dv, dv', vsplit.
  apply dict_item_Ok in Eval, Enc, Enames, Epath.
  split; [exact Eval|]. split; [exact Esplit|]. split; [exact Emin|].
  split.
  - unfold split_sources in Evals.
    rewrite (proj2 (dict_item_Ok (KStr "val") [dv'] _)) in Evals
      by apply dict_get_set_eq.
    cbn [rbind Ok] in Evals. change (String.eqb "val" "train") with false in Evals.
    cbv iota in Evals.
    rstep Evals vpaths Epaths.
    apply rmap_singleton in Epaths as [vp [Ep ->]].
    apply dict_item_Ok in Ep.
    rstep Evals ventry Eentry. rstep Evals vgd Egd.
    assert (Hval0 : exists more, vvals = vp :: more).
    { destruct vgd; try (injection Evals as <-; eexists; reflexivity);
        rstep Evals vu Eu; injection Evals as <-; eexists; reflexivity. }
    destruct Hval0 as [more ->]. simpl in Eval0. injection Eval0 as <-.
    exact Ep.
  - exists vnc, vnames, vpath.
    rewrite <- (resolve_minival_other dv dv' "nc" Emin) by discriminate.
    rewrite <- (resolve_minival_other dv dv' "names" Emin) by discriminate.
    rewrite <- (resolve_minival_other dv dv' "path" Emin) by discriminate.
    repeat split; assumption || reflexivity.
Qed.

Lemma get_dataset_Ok_inv {Tok Feat} (api : DataAPI Feat) (self : Trainer)
    (w w' : World Tok Feat) res :
  get_dataset api self w = (Ok res, w') ->
  exists cfg checked,
    args_data self = PDict cfg /\
    truthy (dict_get_default (KStr "train") (PBool false) cfg) = true /\
    truthy (dict_get_default (KStr "val") (PBool false) cfg) = true /\
    resolve_config api cfg w = (Ok checked, w') /\
    assemble self cfg checked = Ok res.
Proof.
  intros H.
  destruct (args_data self) as [| | | | |l|cfg] eqn:Hargs;
    try (unfold get_dataset in H; rewrite Hargs in H; discriminate H).
  rewrite (get_dataset_eq api self cfg w Hargs) in H.
  destruct (truthy (dict_get_default (KStr "train") (PBool false) cfg))
    eqn:Htrain; [|discriminate H].
  destruct (truthy (dict_get_default (KStr "val") (PBool false) cfg))
    eqn:Hval; [|discriminate H].
  simpl in H.
  destruct (resolve_config api cfg w) as [[e|checked] w1] eqn:Hres;
    [discriminate H|].
  injection H as H <-.
  exists cfg, checked. repeat split; auto.
Qed.

(** An accepted configuration has exactly one validation source [src]; the
    parts of the result are read from the dataset [dv] it is checked to. *)
Lemma get_dataset_accepted {Tok Feat} (api : DataAPI Feat) (self self' : Trainer)
    (w w' : World Tok Feat) (train val : pyval) :
  get_dataset api self w = (Ok (self', (train, val)), w') ->
  exists cfg entry src dv dv' vsplit,
    args_data self = PDict cfg /\
    dict_get (KStr "val") cfg = Some entry /\
    yolo_sources entry = Ok [src] /\
    check_det_dataset api src = Ok dv /\
    val_split_of dv = Ok vsplit /\
    resolve_minival dv = Ok dv' /\
    dict_get (KStr vsplit) dv' = Some val /\
    (exists vnc vnames vpath,
       dict_get (KStr "nc") dv = Some vnc /\
       dict_get (KStr "names") dv = Some vnames /\
       dict_get (KStr "path") dv = Some vpath /\
       dict_get (KStr "nc") (data self') = Some vnc /\
       dict_get (KStr "names") (data self') = Some vnames /\
       dict_get (KStr "path") (data self') = Some vpath).
Proof.
  intros H.
  apply get_dataset_Ok_inv in H as [cfg [checked [Hargs [_ [_ [Hres Hasm]]]]]].
  apply assemble_Ok in Hasm
    as [dv [dv' [vsplit [Hval [Hsplit [Hmin [Hitem Hparts]]]]]]].
  pose proof (resolve_config_get api cfg w checked w' (KStr "val") Hres) as Hget.
  destruct (dict_get (KStr "val") cfg) as [entry|] eqn:Hentry; [|congruence].
  destruct Hget as [ds [Hchecked Hds]].
  assert (ds = [dv]) by congruence. subst ds.
  unfold checked_entry in Hchecked. rstep Hchecked vsources Esrc.
  apply rmap_singleton_inv in Hchecked as [src [-> Hsrc]].
  exists cfg, entry, src, dv, dv', vsplit.
  repeat (split; [assumption|]). exact Hparts.
Qed.

(** C9: for an accepted configuration, the label count, the label names
    and the root path of the descriptor stored in the trainer are those of
    the dataset that the single source of the [val] entry is checked to;
    no training dataset takes part. *)
Theorem get_dataset_descriptor_from_val {Tok Feat} (api : DataAPI Feat)
    (self self' : Trainer) (w w' : World Tok Feat) (train val : pyval) :
  get_dataset api self w = (Ok (self', (train, val)), w') ->
  exists cfg entry src dv vnc vnames vpath,
    args_data self = PDict cfg /\
    dict_get (KStr "val") cfg = Some entry /\
    yolo_sources entry = Ok [src] /\
    check_det_dataset api src = Ok dv /\
    dict_get (KStr "nc") dv = Some vnc /\
    dict_get (KStr "names") dv = Some vnames /\
    dict_get (KStr "path") dv = Some vpath /\
    dict_get (KStr "nc") (data self') = Some vnc /\
    dict_get (KStr "names") (data self') = Some vnames /\
    dict_get (KStr "path") (data self') = Some vpath.
Proof.
  intros H.
  apply get_dataset_accepted in H
    as [cfg [entry [src [dv [dv' [vsplit
         [Hargs [Hentry [Hsrc [Hdv [_ [_ [_ Hparts]]]]]]]]]]]]].
  destruct Hparts as [vnc [vnames [vpath [H1 [H2 [H3 [H4 [H5 H6]]]]]]]].
  exists cfg, entry, src, dv, vnc, vnames, vpath. repeat split; assumption.
Qed.

Lemma get_dataset_descriptor_from_val_witness :
  exists self' train val w',
    get_dataset (Tok:=nat) Demo.api (Demo.trainer Demo.data_yaml) Demo.world0
    = (Ok (self', (train, val)), w') /\
    dict_get (KStr "nc") (data self') = Some (PInt 1203).
Proof.
  assert (Hrun : exists self' train val w',
             get_dataset (Tok:=nat) Demo.api (Demo.trainer Demo.data_yaml)
               Demo.world0 = (Ok (self', (train, val)), w')).
  { do 4 eexists. cbv. reflexivity. }
  destruct Hrun as [self' [train [val [w' Hrun]]]].
  exists self', train, val, w'. split; [exact Hrun|].
  destruct (get_dataset_descriptor_from_val Demo.api _ _ _ _ _ _ Hrun)
    as [cfg [entry [src [dv [vnc [vnames [vpath
         [Hargs [Hentry [Hsrc [Hdv [Hnc [_ [_ [Hdata _]]]]]]]]]]]]]]].
  injection Hargs as <-. injection Hentry as <-. injection Hsrc as <-.
  injection Hdv as <-. injection Hnc as <-. exact Hdata.
Defined.

(** C4: when the datasets of the configuration are checked and the [val]
    entry gives a number of them other than one, [get_dataset] raises an
    assertion error; when the [train] and [val] entries are there, it is the
    one that reports the number, raised after the checks. *)
Theorem get_dataset_val_count {Tok Feat} (api : DataAPI Feat) (self : Trainer)
    (cfg : pydict) (checked : dict pykey (list pydict)) (ds : list pydict)
    (w w1 : World Tok Feat) :
  args_data self = PDict cfg ->
  resolve_config api cfg w = (Ok checked, w1) ->
  dict_get (KStr "val") checked = Some ds ->
  length ds <> 1%nat ->
  (exists msg w', get_dataset api self w = (Err (AssertionError msg), w')) /\
  (truthy (dict_get_default (KStr "train") (PBool false) cfg) = true ->
   truthy (dict_get_default (KStr "val") (PBool false) cfg) = true ->
   get_dataset api self w =
   (Err (AssertionError ("Only support validating on 1 dataset for now, but got "
                         +:+ pretty (length ds) +:+ ".")), w1)).
Proof.
  intros Hargs Hres Hval Hlen.
  assert (Hasm : assemble self cfg checked =
                 Err (AssertionError
                        ("Only support validating on 1 dataset for now, but got "
                         +:+ pretty (length ds) +:+ "."))).
  { unfold assemble, dict_item. rewrite Hval. cbn [rbind Ok].
    unfold rassert. apply Nat.eqb_neq in Hlen. rewrite Hlen. reflexivity. }
  rewrite (get_dataset_eq api self cfg w Hargs), Hres.
  cbv beta iota delta [Ok]. unfold Err in Hasm. rewrite Hasm.
  split.
  - destruct (truthy (dict_get_default (KStr "train") (PBool false) cfg));
      simpl; [|eauto].
    destruct (truthy (dict_get_default (KStr "val") (PBool false) cfg));
      simpl; eauto.
  - intros -> ->. reflexivity.
Qed.

Lemma get_dataset_val_count_witness :
  exists w',
    get_dataset (Tok:=nat) Demo.api (Demo.trainer Demo.data_yaml_two_val)
      Demo.world0
    = (Err (AssertionError
              "Only support validating on 1 dataset for now, but got 2."), w').
Proof.
  eexists.
  refine (proj2 (get_dataset_val_count Demo.api
                   (Demo.trainer Demo.data_yaml_two_val)
                   _ [(KStr "train", [Demo.objects365]);
                      (KStr "val", [Demo.lvis; Demo.coco])]
                   [Demo.lvis; Demo.coco] Demo.world0 _ eq_refl _ eq_refl _)
            eq_refl eq_refl).
  - cbv. reflexivity.
  - simpl. lia.
Defined.

(** ** Substrings *)

Lemma append_cons (a : ascii) (n post : string) :
  String a n +:+ post = String a (n +:+ post).
Proof. reflexivity. Qed.

Lemma prefix_spec (n h : string) :
  String.prefix n h = true <-> exists post, h = n +:+ post.
Proof.
  revert h. induction n as [|a n IH]; intros h.
  - split; [intros _; exists h; reflexivity | intros _; destruct h; reflexivity].
  - destruct h as [|c h]; simpl.
    + split; [discriminate | intros [post H]; discriminate H].
    + destruct (ascii_dec a c) as [->|Hne].
      * rewrite IH. split; intros [post H]; exists post.
        -- rewrite H. reflexivity.
        -- rewrite append_cons in H. injection H as H. exact H.
      * split; [discriminate|].
        intros [post H]. rewrite append_cons in H. congruence.
Qed.

Lemma str_contains_unfold (n h : string) :
  str_contains n h =
  String.prefix n h ||
  match h with
  | EmptyString => false
  | String _ rest => str_contains n rest
  end.
Proof. destruct h; reflexivity. Qed.

Lemma str_contains_spec (n h : string) :
  str_contains n h = true <-> substring_of n h.
Proof.
  unfold substring_of. split.
  - induction h as [|c h IH]; rewrite str_contains_unfold; intros H;
      apply orb_true_iff in H as [H|H].
    + apply prefix_spec in H as [post H]. exists "", post. exact H.
    + discriminate H.
    + apply prefix_spec in H as [post H]. exists "", post. exact H.
    + destruct (IH H) as [pre [post Hh]].
      exists (String c pre), post. rewrite append_cons, Hh. reflexivity.
  - intros [pre [post H]]. revert h H.
    induction pre as [|c pre IH]; intros h H; rewrite str_contains_unfold.
    + apply orb_true_iff. left. apply prefix_spec. exists post. exact H.
    + subst h. rewrite append_cons. apply orb_true_iff. right.
      apply IH. reflexivity.
Qed.

Lemma split_name_cases (c : bool) :
  ((if c then "minival" else "val") = "minival" <-> c = true) /\
  ((if c then "minival" else "val") = "val" <-> c = false).
Proof. destruct c; repeat split; intros H; congruence || discriminate H. Qed.

Lemma final_eval_Ok (self : Trainer) (v : pyval) (vsplit : string) :
  final_eval self = Ok (v, vsplit) ->
  vsplit = if match v with PStr s => str_contains "lvis" s | _ => false end
           then "minival" else "val".
Proof.
  unfold final_eval. intros H.
  rstep H ventry E1. rstep H vyolo E2. rstep H vval E3.
  injection H as <- <-. reflexivity.
Qed.

(** C10: for an accepted configuration, with [dv] the validation dataset,
    the split whose path is returned is [minival] exactly when [lvis]
    occurs in the string [dv["val"]], and [val] exactly when it does not.
    [final_eval] follows the same rule on the first validation source of the
    configuration: [minival] exactly when it is a string in which [lvis]
    occurs, [val] otherwise. *)
Theorem val_split_rule {Tok Feat} (api : DataAPI Feat) (self self' : Trainer)
    (w w' : World Tok Feat) (train val : pyval) :
  get_dataset api self w = (Ok (self', (train, val)), w') ->
  exists cfg entry src dv dv' vsplit,
    args_data self = PDict cfg /\
    dict_get (KStr "val") cfg = Some entry /\
    yolo_sources entry = Ok [src] /\
    check_det_dataset api src = Ok dv /\
    val_split_of dv = Ok vsplit /\
    resolve_minival dv = Ok dv' /\
    dict_get (KStr vsplit) dv' = Some val /\
    (forall s, dict_get (KStr "val") dv = Some (PStr s) ->
       (vsplit = "minival" <-> substring_of "lvis" s) /\
       (vsplit = "val" <-> ~ substring_of "lvis" s)) /\
    (forall v esplit, final_eval self = Ok (v, esplit) ->
       (esplit = "minival" <-> exists s, v = PStr s /\ substring_of "lvis" s) /\
       (esplit = "val" <-> ~ exists s, v = PStr s /\ substring_of "lvis" s)) /\
    (forall l, py_getitem entry "yolo_data" = Ok (PList l) ->
       exists esplit, final_eval self = Ok (src, esplit)).
Proof.
  intros H.
  apply get_dataset_accepted in H
    as [cfg [entry [src [dv [dv' [vsplit
         [Hargs [Hentry [Hsrc [Hdv [Hsplit [Hmin [Hitem _]]]]]]]]]]]]].
  exists cfg, entry, src, dv, dv', vsplit.
  repeat (split; [assumption|]).
  split; [|split].
  - intros s Hs. unfold val_split_of, dict_item in Hsplit.
    rewrite Hs in Hsplit. cbn [rbind Ok py_contains] in Hsplit.
    injection Hsplit as <-.
    destruct (split_name_cases (str_contains "lvis" s)) as [Hmini Hval].
    rewrite Hmini, Hval, <- str_contains_spec.
    split; [reflexivity|]. symmetry. apply not_true_iff_false.
  - intros v esplit Heval. apply final_eval_Ok in Heval. subst esplit.
    set (c := match v with PStr s => str_contains "lvis" s | _ => false end).
    assert (Hc : c = true <-> exists s, v = PStr s /\ substring_of "lvis" s).
    { unfold c. split.
      - destruct v; try discriminate. intros Hs. eexists. split; [reflexivity|].
        apply str_contains_spec. exact Hs.
      - intros [s [-> Hs]]. apply str_contains_spec. exact Hs. }
    destruct (split_name_cases c) as [Hmini Hval].
    rewrite Hmini, Hval, <- Hc.
    split; [reflexivity|]. symmetry. apply not_true_iff_false.
  - intros l Hl. unfold final_eval. rewrite Hargs.
    unfold py_getitem at 1. rewrite (proj2 (dict_item_Ok _ _ _) Hentry).
    cbn [rbind Ok]. rewrite Hl. cbn [rbind Ok].
    assert (Hl1 : l = [src]).
    { unfold yolo_sources in Hsrc. destruct entry; try discriminate Hl.
      simpl in Hl, Hsrc. apply dict_item_Ok in Hl.
      unfold dict_get_default in Hsrc. rewrite Hl in Hsrc.
      simpl in Hsrc. injection Hsrc as ->. reflexivity. }
    subst l. simpl. eauto.
Qed.

Lemma val_split_rule_witness :
  exists self' train val w',
    get_dataset (Tok:=nat) Demo.api (Demo.trainer Demo.data_yaml) Demo.world0
    = (Ok (self', (train, val)), w') /\
    val_split_of Demo.lvis = Ok "minival" /\
    final_eval (Demo.trainer Demo.data_yaml) = Ok (PStr "lvis.yaml", "minival").
Proof.
  assert (Hrun : exists self' train val w',
             get_dataset (Tok:=nat) Demo.api (Demo.trainer Demo.data_yaml)
               Demo.world0 = (Ok (self', (train, val)), w')).
  { do 4 eexists. cbv. reflexivity. }
  destruct Hrun as [self' [train [val [w' Hrun]]]].
  exists self', train, val, w'. split; [exact Hrun|].
  destruct (val_split_rule Demo.api _ _ _ _ _ _ Hrun)
    as [cfg [entry [src [dv [dv' [vsplit
         [Hargs [Hentry [Hsrc [Hdv [Hsplit [_ [_ [Hrule [Heval _]]]]]]]]]]]]]]].
  injection Hargs as <-. injection Hentry as <-. injection Hsrc as <-.
  injection Hdv as <-.
  destruct (Hrule "/datasets/lvis/val.txt" eq_refl) as [Hmini _].
  assert (Hsub : substring_of "lvis" "/datasets/lvis/val.txt").
  { exists "/datasets/", "/val.txt". reflexivity. }
  apply Hmini in Hsub. subst vsplit.
  split; [exact Hsplit|].
  destruct (Heval (PStr "lvis.yaml") "minival" eq_refl) as [_ _].
  reflexivity.
Defined.

(** * Further properties *)

(** ** Embedding cache: files, failures, batches *)

Section EmbeddingMore.
Context {Tok Feat : Type}.
Variable tm : TextModel Tok Feat.
Implicit Types (w : World Tok Feat) (p q : Path) (texts : list string).

Lemma generate_files_ne texts batch dev p w r w' q :
  generate_data_embeddings tm texts batch dev p w = (r, w') ->
  q <> p -> files w' !! q = files w !! q.
Proof.
  intros H Hq. destruct (files w !! p) as [stored|] eqn:Hp.
  - rewrite (generate_cache_hit tm _ _ _ _ _ _ Hp) in H.
    injection H as _ <-. reflexivity.
  - rewrite (generate_cache_miss tm _ _ _ _ _ Hp) in H. cbv zeta in H.
    destruct (match batch with
              | Some b => tensor_split (tokenize tm texts) b
              | None => Err TypeError
              end) as [e|batches]; injection H as _ <-; [reflexivity|].
    simpl. apply lookup_insert_ne. congruence.
Qed.

Lemma generate_files_Err texts batch dev p w e w' :
  generate_data_embeddings tm texts batch dev p w = (Err e, w') ->
  files w' = files w.
Proof.
  intros H. destruct (files w !! p) as [stored|] eqn:Hp.
  - rewrite (generate_cache_hit tm _ _ _ _ _ _ Hp) in H. discriminate H.
  - rewrite (generate_cache_miss tm _ _ _ _ _ Hp) in H. cbv zeta in H.
    destruct (match batch with
              | Some b => tensor_split (tokenize tm texts) b
              | None => Err TypeError
              end) as [e'|batches]; [|discriminate H].
    injection H as _ <-. reflexivity.
Qed.
End EmbeddingMore.

(** X1: a call of the embedding routine changes no file but the one at its
    cache path, and a call that raises changes no file at all: nothing is
    cached for a computation that did not finish. *)
Theorem generate_data_embeddings_files {Tok Feat} (tm : TextModel Tok Feat)
    (texts : list string) (batch : option Z) (dev : string) (p : Path)
    (w : World Tok Feat) :
  (forall q, q <> p ->
     files (snd (generate_data_embeddings tm texts batch dev p w)) !! q
     = files w !! q) /\
  (forall e, fst (generate_data_embeddings tm texts batch dev p w) = Err e ->
     files (snd (generate_data_embeddings tm texts batch dev p w)) = files w).
Proof.
  destruct (generate_data_embeddings tm texts batch dev p w) as [r w'] eqn:H.
  simpl. split.
  - intros q Hq. eapply generate_files_ne; eassumption.
  - intros e ->. eapply generate_files_Err; eassumption.
Qed.

(** X2: on a cache miss, a missing batch size raises [TypeError] and a batch
    size that is negative, or zero while there are tokens, raises
    [RuntimeError]; by then the text model has been built and the labels
    tokenized, no batch has been encoded and no file has been written. *)
Theorem generate_data_embeddings_bad_batch {Tok Feat} (tm : TextModel Tok Feat)
    (texts : list string) (batch : option Z) (dev : string) (p : Path)
    (w : World Tok Feat) :
  files w !! p = None ->
  (batch = None \/
   exists b, batch = Some b /\ (b < 0 \/ (b = 0 /\ tokenize tm texts <> []))) ->
  generate_data_embeddings tm texts batch dev p w =
  (Err (match batch with None => TypeError | Some _ => RuntimeError end),
   {| files := files w;
      trace := trace w ++ [EvBuildTextModel "mobileclip:blt" dev;
                           EvTokenize texts] |}).
Proof.
  intros Hmiss Hbatch.
  rewrite (generate_cache_miss tm _ _ _ _ _ Hmiss). cbv zeta.
  rewrite <- app_assoc. simpl app.
  destruct Hbatch as [->|[b [-> Hb]]]; [reflexivity|].
  unfold tensor_split. destruct Hb as [Hneg|[-> Htok]].
  - destruct (b <? 0) eqn:E; [reflexivity | lia].
  - simpl. destruct (tokenize tm texts); [congruence | reflexivity].
Qed.

Lemma generate_data_embeddings_bad_batch_witness :
  fst (generate_data_embeddings Demo.tm ["Sneakers"] (Some 0) "cpu"
         Demo.cache_path Demo.world0) = Err RuntimeError.
Proof.
  rewrite (generate_data_embeddings_bad_batch Demo.tm ["Sneakers"] (Some 0)
             "cpu" Demo.cache_path Demo.world0).
  - reflexivity.
  - apply lookup_empty.
  - right. exists 0. split; [reflexivity|]. right. split; [reflexivity|].
    simpl. discriminate.
Defined.

Lemma encode_concat {Tok Feat} (tm : TextModel Tok Feat)
    (chunks : list (list Tok)) :
  (forall a b, encode_text tm (a ++ b) = encode_text tm a ++ encode_text tm b) ->
  concat (map (encode_text tm) chunks) = encode_text tm (concat chunks).
Proof.
  intros Happ.
  assert (Hnil : encode_text tm [] = []).
  { pose proof (f_equal (@length _) (Happ [] [])) as H.
    simpl in H. rewrite length_app in H.
    destruct (encode_text tm []); [reflexivity | simpl in H; lia]. }
  induction chunks as [|c rest IH]; simpl.
  - symmetry. exact Hnil.
  - rewrite IH, Happ. reflexivity.
Qed.

(** X3: when the text encoder works row by row (encoding a concatenation is
    concatenating the encodings), the mapping computed on a cache miss does
    not depend on the batch size: for every positive batch size it is the
    one obtained by encoding all the tokens at once. *)
Theorem generate_data_embeddings_batch_independent {Tok Feat}
    (tm : TextModel Tok Feat) (texts : list string) (b : Z) (dev : string)
    (p : Path) (w : World Tok Feat) :
  (forall x y, encode_text tm (x ++ y) = encode_text tm x ++ encode_text tm y) ->
  files w !! p = None ->
  0 < b ->
  fst (generate_data_embeddings tm texts (Some b) dev p w) =
  Ok (dict_update (combine texts (encode_text tm (tokenize tm texts))) []).
Proof.
  intros Happ Hmiss Hb.
  rewrite (generate_cache_miss tm _ _ _ _ _ Hmiss). cbv zeta.
  destruct (tensor_split_pos (tokenize tm texts) b Hb) as [batches [-> [Hcat _]]].
  simpl. rewrite (encode_concat tm batches Happ), Hcat. reflexivity.
Qed.

Lemma generate_data_embeddings_batch_independent_witness :
  fst (generate_data_embeddings Demo.tm ["Sneakers"; "Person"; "a dog"] (Some 2)
         "cpu" Demo.cache_path Demo.world0) =
  fst (generate_data_embeddings Demo.tm ["Sneakers"; "Person"; "a dog"] (Some 5)
         "cpu" Demo.cache_path Demo.world0).
Proof.
  assert (Happ : forall x y : list nat,
             encode_text Demo.tm (x ++ y) =
             encode_text Demo.tm x ++ encode_text Demo.tm y).
  { intros x y. simpl. apply map_app. }
  assert (Hmiss : files Demo.world0 !! Demo.cache_path = None).
  { apply lookup_empty. }
  rewrite (generate_data_embeddings_batch_independent Demo.tm _ 2 "cpu"
             Demo.cache_path Demo.world0 Happ Hmiss) by lia.
  rewrite (generate_data_embeddings_batch_independent Demo.tm _ 5 "cpu"
             Demo.cache_path Demo.world0 Happ Hmiss) by lia.
  reflexivity.
Defined.

Lemma dict_set_fresh {K V} `{EqDecision K} (k : K) (v : V) (d : dict K V) :
  ~ In k (dict_keys d) -> dict_set k v d = d ++ [(k, v)].
Proof.
  unfold dict_keys. induction d as [|[x vx] rest IH]; simpl; intros Hk.
  - reflexivity.
  - destruct (decide (k = x)) as [->|Hne]; [exfalso; auto|].
    rewrite IH by auto. reflexivity.
Qed.

Lemma dict_update_fresh {K V} `{EqDecision K} (pairs d : dict K V) :
  List.NoDup (dict_keys (d ++ pairs)) -> dict_update pairs d = d ++ pairs.
Proof.
  unfold dict_update, dict_keys. revert d.
  induction pairs as [|[x vx] rest IH]; simpl; intros d Hnd.
  - rewrite app_nil_r. reflexivity.
  - assert (Hsplit : d ++ (x, vx) :: rest = (d ++ [(x, vx)]) ++ rest)
      by (rewrite <- app_assoc; reflexivity).
    rewrite dict_set_fresh.
    + rewrite IH; [symmetry; exact Hsplit|]. rewrite <- Hsplit. exact Hnd.
    + rewrite map_app in Hnd. simpl in Hnd.
      apply NoDup_remove_2 in Hnd. intros Hin. apply Hnd.
      apply in_or_app. left. exact Hin.
Qed.

(** X4: when no label is given twice, the mapping computed on a cache miss
    is the list of the labels, in the order given, each paired with the
    feature row at its position in the joined output of the encoder. *)
Theorem generate_data_embeddings_in_order {Tok Feat} (tm : TextModel Tok Feat)
    (texts : list string) (b : Z) (dev : string) (p : Path)
    (w : World Tok Feat) :
  text_model_rows tm ->
  List.NoDup texts ->
  files w !! p = None ->
  0 < b ->
  exists batches feats,
    tensor_split (tokenize tm texts) b = Ok batches /\
    feats = concat (map (encode_text tm) batches) /\
    length feats = length texts /\
    fst (generate_data_embeddings tm texts (Some b) dev p w)
    = Ok (combine texts feats) /\
    dict_keys (combine texts feats) = texts.
Proof.
  intros [Htok Henc] Hnd Hmiss Hb.
  destruct (tensor_split_pos (tokenize tm texts) b Hb) as [batches [Hsplit [Hcat _]]].
  exists batches, (concat (map (encode_text tm) batches)).
  assert (Hlen : length (concat (map (encode_text tm) batches)) = length texts).
  { rewrite encode_rows, Hcat, Htok by assumption. reflexivity. }
  assert (Hkeys : dict_keys (combine texts (concat (map (encode_text tm) batches)))
                  = texts).
  { apply map_fst_combine_same. exact Hlen. }
  repeat split; try assumption.
  rewrite (generate_cache_miss tm _ _ _ _ _ Hmiss). cbv zeta.
  rewrite Hsplit. simpl. f_equal.
  apply (dict_update_fresh _ []). simpl. rewrite Hkeys. exact Hnd.
Qed.

Lemma generate_data_embeddings_in_order_witness :
  fst (generate_data_embeddings Demo.tm ["Sneakers"; "Person"; "a dog"] (Some 2)
         "cpu" Demo.cache_path Demo.world0)
  = Ok [("Sneakers", 8); ("Person", 6); ("a dog", 5)].
Proof.
  assert (Hrows : text_model_rows Demo.tm).
  { split; intros l; simpl; apply length_map. }
  assert (Hnd : List.NoDup ["Sneakers"; "Person"; "a dog"]).
  { repeat constructor; simpl; intuition discriminate. }
  assert (Hmiss : files Demo.world0 !! Demo.cache_path = None).
  { apply lookup_empty. }
  assert (Hb : 0 < 2) by lia.
  destruct (generate_data_embeddings_in_order Demo.tm _ 2 "cpu" Demo.cache_path
              Demo.world0 Hrows Hnd Hmiss Hb)
    as [batches [feats [Hsplit [Hfeats [_ [Hgen _]]]]]].
  rewrite Hgen. injection Hsplit as <-. subst feats. reflexivity.
Defined.

Lemma chunks_from_bound {A} (fuel n : nat) (t : list A) :
  (0 < n)%nat ->
  Forall (fun c => (1 <= length c <= n)%nat) (chunks_from fuel n t).
Proof.
  intros Hn. revert t. induction fuel as [|fuel IH]; intros t; simpl.
  - constructor.
  - destruct t as [|a t']; [constructor|].
    constructor; [|apply IH].
    rewrite length_firstn. simpl length. lia.
Qed.

(** X5: with a positive batch size, the batches given to the encoder are,
    joined in order, the tokens of all the labels, and each has at most
    [batch] rows; when there are tokens no batch is empty, and when there
    are none the encoder is called once, on an empty batch. *)
Theorem generate_data_embeddings_batches {Tok Feat} (tm : TextModel Tok Feat)
    (texts : list string) (b : Z) (dev : string) (p : Path)
    (w : World Tok Feat) :
  files w !! p = None ->
  0 < b ->
  exists batches,
    trace (snd (generate_data_embeddings tm texts (Some b) dev p w)) =
      trace w ++ [EvBuildTextModel "mobileclip:blt" dev; EvTokenize texts]
        ++ map EvEncodeText batches ++ [EvTorchSave p] /\
    concat batches = tokenize tm texts /\
    Forall (fun c => (length c <= Z.to_nat b)%nat) batches /\
    (tokenize tm texts <> [] -> Forall (fun c => c <> []) batches) /\
    (tokenize tm texts = [] -> batches = [[]]).
Proof.
  intros Hmiss Hb.
  destruct (tensor_split_pos (tokenize tm texts) b Hb) as [batches [Hsplit [Hcat _]]].
  exists batches.
  split.
  { rewrite (generate_cache_miss tm _ _ _ _ _ Hmiss). cbv zeta.
    rewrite Hsplit. simpl. rewrite <- !app_assoc. reflexivity. }
  split; [exact Hcat|].
  unfold tensor_split in Hsplit.
  destruct (b <? 0) eqn:Hneg; [lia|].
  destruct (tokenize tm texts) as [|t0 ts] eqn:Htok.
  - injection Hsplit as <-. repeat split.
    + repeat constructor. simpl. lia.
    + congruence.
  - destruct (b =? 0) eqn:Hz; [lia|]. injection Hsplit as <-.
    pose proof (chunks_from_bound (length (t0 :: ts)) (Z.to_nat b) (t0 :: ts))
      as Hbound.
    assert (Hpos : (0 < Z.to_nat b)%nat) by lia.
    specialize (Hbound Hpos).
    repeat split.
    + revert Hbound. apply List.Forall_impl. intros c Hc. lia.
    + intros _. revert Hbound. apply List.Forall_impl.
      intros c Hc ->. simpl in Hc. lia.
    + discriminate.
Qed.

Lemma generate_data_embeddings_batches_witness :
  exists batches,
    trace (snd (generate_data_embeddings Demo.tm ["Sneakers"; "Person"; "a dog"]
                  (Some 2) "cpu" Demo.cache_path Demo.world0)) =
      trace Demo.world0
        ++ [EvBuildTextModel "mobileclip:blt" "cpu";
            EvTokenize ["Sneakers"; "Person"; "a dog"]]
        ++ map EvEncodeText batches ++ [EvTorchSave Demo.cache_path] /\
    Forall (fun c => (length c <= 2)%nat) batches.
Proof.
  assert (Hmiss : files Demo.world0 !! Demo.cache_path = None).
  { apply lookup_empty. }
  assert (Hb : 0 < 2) by lia.
  destruct (generate_data_embeddings_batches Demo.tm
              ["Sneakers"; "Person"; "a dog"] 2 "cpu" Demo.cache_path
              Demo.world0 Hmiss Hb) as [batches [Htrace [_ [Hbound _]]]].
  exists batches. split; [exact Htrace | exact Hbound].
Defined.

(** ** Labels of the datasets *)

Lemma get_neg_texts_sublist (cf : dict string Z) (t : Z) :
  sublist (_get_neg_texts cf t) (dict_keys cf).
Proof.
  unfold _get_neg_texts, dict_keys.
  induction cf as [|[k v] rest IH]; simpl; [constructor|].
  destruct (t <=? v); simpl; constructor; exact IH.
Qed.

Lemma get_neg_texts_NoDup (cf : dict string Z) (t : Z) :
  dict_wf cf -> List.NoDup (_get_neg_texts cf t).
Proof.
  unfold dict_wf, dict_keys.
  induction cf as [|[k v] rest IH]; intros Hwf; [constructor|].
  simpl in Hwf. apply NoDup_cons_iff in Hwf as [Hk Hrest].
  unfold _get_neg_texts in *. simpl.
  destruct (t <=? v); simpl; [|auto].
  constructor; [|auto].
  intros Hin. apply Hk. apply in_map_iff in Hin as [[k' v'] [Heq Hin]].
  simpl in Heq. subst k'. apply filter_In in Hin as [Hin _].
  apply in_map_iff. exists (k, v'). auto.
Qed.

(** X6: the negative labels come out in the order of the table, each once,
    and raising the threshold can only remove labels. *)
Theorem get_neg_texts_order (cf : dict string Z) (t t' : Z) :
  dict_wf cf ->
  t <= t' ->
  sublist (_get_neg_texts cf t) (dict_keys cf) /\
  List.NoDup (_get_neg_texts cf t) /\
  sublist (_get_neg_texts cf t') (_get_neg_texts cf t).
Proof.
  intros Hwf Hle. split; [apply get_neg_texts_sublist|].
  split; [apply get_neg_texts_NoDup; exact Hwf|].
  clear Hwf. unfold _get_neg_texts.
  induction cf as [|[k v] rest IH]; simpl; [constructor|].
  destruct (t' <=? v) eqn:E'; destruct (t <=? v) eqn:E; simpl;
    try (constructor; exact IH); try exact IH.
  lia.
Qed.

Lemma get_neg_texts_order_witness :
  sublist (_get_neg_texts [("Person", 100); ("Sneakers", 99); ("a dog", 250)] 200)
    (_get_neg_texts [("Person", 100); ("Sneakers", 99); ("a dog", 250)] 100).
Proof.
  assert (Hwf : dict_wf [("Person", 100); ("Sneakers", 99); ("a dog", 250)]).
  { unfold dict_wf. simpl. repeat constructor; simpl; intuition discriminate. }
  assert (Hle : 100 <= 200) by lia.
  exact (proj2 (proj2 (get_neg_texts_order _ 100 200 Hwf Hle))).
Defined.

(** X7: what [build_dataset] takes as negative labels: a label is negative
    exactly when it occurs in a dataset that has [category_freq] and its
    counts, summed over those datasets, reach 100. *)
Theorem neg_names_total_count {Feat} (datasets : list (Dataset Feat)) :
  Forall (fun d => forall c, category_freq d = Some c -> dict_wf c) datasets ->
  exists table,
    sum_category_freq datasets [] = Ok table /\
    forall k,
      In k (_get_neg_texts table 100) <->
      has_label k (exposed_freqs datasets) = true /\
      100 <= total_count k (exposed_freqs datasets).
Proof.
  intros Hwf.
  destruct (sum_category_freq_acc datasets [] Hwf) as [table [Hsum [Htable Hget]]].
  { constructor. }
  exists table. split; [exact Hsum|].
  intros k. rewrite get_neg_texts_In. specialize (Hget k). split.
  - intros [v [Hin Hv]]. apply (In_dict_get _ _ _ Htable) in Hin.
    rewrite Hin in Hget.
    destruct (has_label k (exposed_freqs datasets)); [|discriminate Hget].
    injection Hget as ->. simpl in Hv. split; [reflexivity | exact Hv].
  - intros [Hl Hv]. rewrite Hl in Hget. simpl in Hget.
    exists (total_count k (exposed_freqs datasets)).
    split; [apply dict_get_In; exact Hget | exact Hv].
Qed.

Lemma neg_names_total_count_witness :
  exists table,
    sum_category_freq [Demo.detection; Demo.bare; Demo.grounding] [] = Ok table /\
    In "Sneakers" (_get_neg_texts table 100) /\
    ~ In "a dog" (_get_neg_texts table 100).
Proof.
  assert (Hwf : Forall (fun d : Dataset Z =>
                          forall c, category_freq d = Some c -> dict_wf c)
                  [Demo.detection; Demo.bare; Demo.grounding]).
  { repeat constructor; simpl; intros c Hc; try discriminate;
      injection Hc as <-; unfold dict_wf; simpl;
      repeat constructor; simpl; intuition discriminate. }
  destruct (neg_names_total_count _ Hwf) as [table [Hsum Hneg]].
  exists table. split; [exact Hsum|]. split.
  - apply Hneg. split; [reflexivity | vm_compute; discriminate].
  - intros Hin. apply Hneg in Hin as [_ Hle]. vm_compute in Hle.
    apply Hle. reflexivity.
Defined.

Lemma union_category_names_elem {Feat} (datasets : list (Dataset Feat))
    (acc : gset string) :
  exists names,
    union_category_names datasets acc = Ok names /\
    forall k,
      k ∈ names <->
      k ∈ acc \/
      exists d s, In d datasets /\ category_names d = Some s /\ k ∈ s.
Proof.
  revert acc. induction datasets as [|d rest IH]; intros acc; simpl.
  - exists acc. split; [reflexivity|]. intros k. split; [auto|].
    intros [H|[d [s [[] _]]]]. exact H.
  - unfold hasattr, getattr. destruct (category_names d) as [s|] eqn:Hd; simpl.
    + destruct (IH (acc ∪ s)) as [names [Hrun Hnames]].
      exists names. split; [exact Hrun|].
      intros k. rewrite Hnames, elem_of_union. split.
      * intros [[H|H]|[d' [s' [Hin [Hs Hk]]]]]; eauto 8.
      * intros [H|[d' [s' [[<-|Hin] [Hs Hk]]]]]; eauto 8.
        rewrite Hd in Hs. injection Hs as <-. auto.
    + destruct (IH acc) as [names [Hrun Hnames]].
      exists names. split; [exact Hrun|].
      intros k. rewrite Hnames. split.
      * intros [H|[d' [s' [Hin [Hs Hk]]]]]; eauto 8.
      * intros [H|[d' [s' [[<-|Hin] [Hs Hk]]]]]; eauto 8.
        congruence.
Qed.

(** X8: the positive labels of [build_dataset] are the union of the
    [category_names] of the datasets that have the attribute: collecting
    them never raises, and a label is collected exactly when one of those
    sets holds it. *)
Theorem category_names_union {Feat} (datasets : list (Dataset Feat)) :
  exists names,
    union_category_names datasets ∅ = Ok names /\
    forall k,
      k ∈ names <->
      exists d s, In d datasets /\ category_names d = Some s /\ k ∈ s.
Proof.
  destruct (union_category_names_elem datasets ∅) as [names [Hrun Hnames]].
  exists names. split; [exact Hrun|].
  intros k. rewrite Hnames. split; [|auto].
  intros [H|H]; [|exact H]. exfalso. revert H. apply not_elem_of_empty.
Qed.

(** ** Dataset assembly: failures, cache files, reuse *)

Lemma rmap_first_error {A B} (f : A -> result B) (pre post : list A) (x : A)
    (e : exn) :
  Forall (fun a => exists b, f a = Ok b) pre ->
  f x = Err e ->
  rmap f (pre ++ x :: post) = Err e.
Proof.
  intros Hpre Hx. induction Hpre as [|a pre' [b Hb] _ IH]; simpl.
  - rewrite Hx. reflexivity.
  - rewrite Hb. simpl. rewrite IH. reflexivity.
Qed.

Lemma embeddings_paths_differ (dir : Path) :
  Path_join (Path_parent dir) (Path_of_string "pos_embeddings.pt") <>
  Path_join (Path_parent dir) (Path_of_string "neg_embeddings.pt").
Proof.
  change (Path_of_string "pos_embeddings.pt") with (false, ["pos_embeddings.pt"]).
  change (Path_of_string "neg_embeddings.pt") with (false, ["neg_embeddings.pt"]).
  unfold Path_join. simpl. intros H. injection H as H.
  apply app_inj_tail in H as [_ H]. discriminate H.
Qed.

Section AssemblyMore.
Context {Tok Feat : Type}.
Variable tm : TextModel Tok Feat.
Variable api : DataAPI Feat.
Implicit Types (w : World Tok Feat) (datasets : list (Dataset Feat)).

(** [build_dataset] in train mode when a source fails to build. *)
Lemma build_dataset_train_Err (self : Trainer) img_paths batch sources e w :
  py_iter img_paths = Ok sources ->
  rmap (build_source api self batch (stride_of self)) sources = Err e ->
  build_dataset tm api self img_paths "train" batch w = (Err e, w).
Proof.
  intros Hiter Hrmap.
  unfold build_dataset. rewrite String.eqb_refl. cbn [negb].
  rewrite bind_lift, Hiter. cbv beta iota delta [Ok].
  rewrite bind_lift. unfold Err in Hrmap. rewrite Hrmap. reflexivity.
Qed.

(** [build_dataset] in train mode once the datasets are built. *)
Lemma build_dataset_train_run (self : Trainer) img_paths batch sources
    datasets w :
  py_iter img_paths = Ok sources ->
  rmap (build_source api self batch (stride_of self)) sources = Ok datasets ->
  exists names table,
    union_category_names datasets ∅ = Ok names /\
    sum_category_freq datasets [] = Ok table /\
    build_dataset tm api self img_paths "train" batch w =
    match list_item0 datasets with
    | inl e => (inl e, w)
    | inr first =>
        match py_Path (img_path first) with
        | inl e => (inl e, w)
        | inr dir =>
            match generate_data_embeddings tm (elements names) batch (device self)
                    (Path_join (Path_parent dir)
                       (Path_of_string "pos_embeddings.pt")) w with
            | (inl e, w1) => (inl e, w1)
            | (inr pos, w1) =>
                match generate_data_embeddings tm (_get_neg_texts table 100)
                        batch (device self)
                        (Path_join (Path_parent dir)
                           (Path_of_string "neg_embeddings.pt")) w1 with
                | (inl e, w2) => (inl e, w2)
                | (inr neg, w2) =>
                    (concat_or_single (map (inject_embeddings pos neg) datasets),
                     w2)
                end
            end
        end
    end.
Proof.
  intros Hiter Hrmap.
  destruct (union_category_names_total datasets ∅) as [names Hnames].
  destruct (sum_category_freq_total datasets []) as [table Htable].
  exists names, table. split; [exact Hnames|]. split; [exact Htable|].
  unfold build_dataset. rewrite String.eqb_refl. cbn [negb].
  rewrite bind_lift, Hiter. cbv beta iota delta [Ok].
  rewrite bind_lift. unfold Ok in Hrmap. rewrite Hrmap. cbv beta iota.
  rewrite bind_lift. unfold Ok in Hnames. rewrite Hnames. cbv beta iota.
  rewrite bind_lift. unfold Ok in Htable. rewrite Htable. cbv beta iota.
  rewrite bind_lift.
  destruct (list_item0 datasets) as [e|first]; [reflexivity|].
  rewrite bind_lift.
  destruct (py_Path (img_path first)) as [e|dir]; [reflexivity|].
  unfold bind.
  destruct (generate_data_embeddings tm (elements names) batch (device self) _ w)
    as [[e|pos] w1]; [reflexivity|].
  destruct (generate_data_embeddings tm (_get_neg_texts table 100) batch
              (device self) _ w1) as [[e|neg] w2]; [reflexivity|].
  unfold concat_or_single.
  destruct (1 <? length (map (inject_embeddings pos neg) datasets))%nat;
    reflexivity.
Qed.
End AssemblyMore.

(** X9: in train mode an empty list of paths raises [IndexError]; nothing
    has been tokenized, encoded, loaded or written by then. *)
Theorem build_dataset_no_source {Tok Feat} (tm : TextModel Tok Feat)
    (api : DataAPI Feat) (self : Trainer) (img_paths : pyval)
    (batch : option Z) (w : World Tok Feat) :
  py_iter img_paths = Ok [] ->
  build_dataset tm api self img_paths "train" batch w = (Err IndexError, w).
Proof.
  intros Hiter.
  destruct (build_dataset_train_run tm api self img_paths batch [] [] w Hiter
              eq_refl) as [names [table [_ [_ Hrun]]]].
  rewrite Hrun. reflexivity.
Qed.

Lemma build_dataset_no_source_witness :
  build_dataset Demo.tm Demo.api Demo.trained (PList []) "train" (Some 16)
    Demo.world0 = (Err IndexError, Demo.world0).
Proof.
  apply (build_dataset_no_source Demo.tm Demo.api Demo.trained (PList [])
           (Some 16) Demo.world0).
  reflexivity.
Defined.

(** X10: in train mode the first source that cannot be built decides the
    outcome: its exception is raised and the world is left as it was.  A
    path string that [get_dataset] has not indexed gives [KeyError], a
    dictionary without [img_path] gives [KeyError], and a list gives
    [TypeError]. *)
Theorem build_dataset_bad_source {Tok Feat} (tm : TextModel Tok Feat)
    (api : DataAPI Feat) (self : Trainer) (img_paths : pyval)
    (batch : option Z) (pre post : list pyval) (src : pyval) (e : exn)
    (w : World Tok Feat) :
  py_iter img_paths = Ok (pre ++ src :: post) ->
  Forall (fun s => exists d,
            build_source api self batch (stride_of self) s = Ok d) pre ->
  build_source api self batch (stride_of self) src = Err e ->
  build_dataset tm api self img_paths "train" batch w = (Err e, w) /\
  (forall s, dict_get (KStr s) (training_data self) = None ->
     build_source api self batch (stride_of self) (PStr s) = Err KeyError) /\
  (forall g, dict_get (KStr "img_path") g = None ->
     build_source api self batch (stride_of self) (PDict g) = Err KeyError) /\
  (forall l, build_source api self batch (stride_of self) (PList l)
             = Err TypeError).
Proof.
  intros Hiter Hpre Hsrc. split.
  - eapply build_dataset_train_Err; [exact Hiter|].
    apply rmap_first_error; assumption.
  - split; [|split].
    + intros s Hs. unfold build_source, dict_item. rewrite Hs. reflexivity.
    + intros g Hg. unfold build_source, py_getitem, dict_item.
      rewrite Hg. reflexivity.
    + intros l. reflexivity.
Qed.

Lemma build_dataset_bad_source_witness :
  build_dataset Demo.tm Demo.api Demo.trained
    (PList [Demo.flickr; PStr "/datasets/coco/train2017.txt"]) "train" (Some 16)
    Demo.world0 = (Err KeyError, Demo.world0).
Proof.
  apply (build_dataset_bad_source Demo.tm Demo.api Demo.trained
           (PList [Demo.flickr; PStr "/datasets/coco/train2017.txt"]) (Some 16)
           [Demo.flickr] [] (PStr "/datasets/coco/train2017.txt") KeyError
           Demo.world0).
  - reflexivity.
  - repeat constructor. eexists. reflexivity.
  - reflexivity.
Defined.


(** What a successful [build_dataset] in train mode went through. *)
Lemma build_dataset_train_Ok {Tok Feat} (tm : TextModel Tok Feat)
    (api : DataAPI Feat) (self : Trainer) img_paths batch sources datasets
    (w w' : World Tok Feat) obj :
  py_iter img_paths = Ok sources ->
  rmap (build_source api self batch (stride_of self)) sources = Ok datasets ->
  build_dataset tm api self img_paths "train" batch w = (Ok obj, w') ->
  exists names table first dir pos neg w1,
    union_category_names datasets ∅ = Ok names /\
    sum_category_freq datasets [] = Ok table /\
    list_item0 datasets = Ok first /\
    py_Path (img_path first) = Ok dir /\
    generate_data_embeddings tm (elements names) batch (device self)
      (Path_join (Path_parent dir) (Path_of_string "pos_embeddings.pt")) w
    = (Ok pos, w1) /\
    generate_data_embeddings tm (_get_neg_texts table 100) batch (device self)
      (Path_join (Path_parent dir) (Path_of_string "neg_embeddings.pt")) w1
    = (Ok neg, w') /\
    concat_or_single (map (inject_embeddings pos neg) datasets) = Ok obj.
Proof.
  intros Hiter Hrmap H.
  destruct (build_dataset_train_run tm api self img_paths batch sources datasets
              w Hiter Hrmap) as [names [table [Hnames [Htable Hrun]]]].
  rewrite Hrun in H. clear Hrun.
  destruct (list_item0 datasets) as [e|first] eqn:Hfirst; [discriminate H|].
  destruct (py_Path (img_path first)) as [e|dir] eqn:Hdir; [discriminate H|].
  destruct (generate_data_embeddings tm (elements names) batch (device self) _ w)
    as [[e|pos] w1] eqn:Hpos; [discriminate H|].
  destruct (generate_data_embeddings tm (_get_neg_texts table 100) batch
              (device self) _ w1) as [[e|neg] w2] eqn:Hneg; [discriminate H|].
  injection H as H <-.
  exists names, table, first, dir, pos, neg, w1.
  repeat (split; [assumption || reflexivity|]). exact H.
Qed.



(** X12: building again in the world left by a successful [build_dataset]
    gives the same dataset object without the text model: whatever text
    model is passed, the only events are the loads of the two cache files,
    and no file changes. *)
Theorem build_dataset_reuses_cache {Tok Feat} (tm tm' : TextModel Tok Feat)
    (api : DataAPI Feat) (self : Trainer) (img_paths : pyval)
    (batch : option Z) (sources : list pyval) (datasets : list (Dataset Feat))
    (w w1 : World Tok Feat) (obj : DatasetObj Feat) :
  py_iter img_paths = Ok sources ->
  rmap (build_source api self batch (stride_of self)) sources = Ok datasets ->
  build_dataset tm api self img_paths "train" batch w = (Ok obj, w1) ->
  exists pos_path neg_path,
    build_dataset tm' api self img_paths "train" batch w1 =
    (Ok obj,
     {| files := files w1;
        trace := trace w1 ++ [EvTorchLoad pos_path; EvTorchLoad neg_path] |}).
Proof.
  intros Hiter Hrmap H.
  destruct (build_dataset_train_Ok tm api self _ _ _ _ _ _ _ Hiter Hrmap H)
    as [names [table [first [dir [pos [neg [w0
         [Hnames [Htable [Hfirst [Hdir [Hpos [Hneg Hobj]]]]]]]]]]]]].
  exists (Path_join (Path_parent dir) (Path_of_string "pos_embeddings.pt")),
         (Path_join (Path_parent dir) (Path_of_string "neg_embeddings.pt")).
  assert (Hpos1 : files w1 !! Path_join (Path_parent dir)
                                (Path_of_string "pos_embeddings.pt") = Some pos).
  { rewrite (generate_files_ne tm _ _ _ _ _ _ _ _ Hneg)
      by apply embeddings_paths_differ.
    eapply generate_persists. exact Hpos. }
  assert (Hneg1 : files w1 !! Path_join (Path_parent dir)
                                (Path_of_string "neg_embeddings.pt") = Some neg).
  { eapply generate_persists. exact Hneg. }
  destruct (build_dataset_train_run tm' api self img_paths batch sources datasets
              w1 Hiter Hrmap) as [names' [table' [Hnames' [Htable' Hrun]]]].
  rewrite Hrun. unfold Ok in Hfirst, Hdir. rewrite Hfirst, Hdir.
  rewrite (generate_cache_hit tm' _ _ _ _ _ _ Hpos1).
  cbv beta iota delta [Ok].
  rewrite (generate_cache_hit tm' _ _ _ _ (loaded _ w1) neg Hneg1).
  cbv beta iota delta [Ok]. unfold Ok in Hobj. rewrite Hobj.
  unfold loaded. simpl. rewrite <- app_assoc. reflexivity.
Qed.

Lemma build_dataset_reuses_cache_witness :
  exists obj w1 w2,
    build_dataset Demo.tm Demo.api Demo.trained
      (PList [PStr "/datasets/Objects365v1/images/train"; Demo.flickr])
      "train" (Some 16) Demo.world0 = (Ok obj, w1) /\
    build_dataset Demo.tm Demo.api Demo.trained
      (PList [PStr "/datasets/Objects365v1/images/train"; Demo.flickr])
      "train" (Some 16) w1 = (Ok obj, w2) /\
    files w2 = files w1.
Proof.
  destruct (build_dataset Demo.tm Demo.api Demo.trained
              (PList [PStr "/datasets/Objects365v1/images/train"; Demo.flickr])
              "train" (Some 16) Demo.world0) as [[e|obj] w1] eqn:Hrun.
  { exfalso. vm_compute in Hrun. discriminate Hrun. }
  destruct (build_dataset_reuses_cache Demo.tm Demo.tm Demo.api Demo.trained
              (PList [PStr "/datasets/Objects365v1/images/train"; Demo.flickr])
              (Some 16)
              [PStr "/datasets/Objects365v1/images/train"; Demo.flickr]
              [Demo.detection; Demo.grounding] _ _ _ eq_refl eq_refl Hrun)
    as [pos_path [neg_path Hagain]].
  exists obj, w1. eexists. split; [reflexivity|].
  split; [exact Hagain | reflexivity].
Defined.

(** ** Dataset paths: assertions, checks, the training index *)

(** X13: with a [train] entry in place, a configuration that has no [val]
    key, or a value there that is false, makes [get_dataset] raise the
    assertion error for the missing validation dataset; no dataset has been
    checked by then. *)
Theorem get_dataset_no_val {Tok Feat} (api : DataAPI Feat) (self : Trainer)
    (cfg : pydict) (w : World Tok Feat) :
  args_data self = PDict cfg ->
  truthy (dict_get_default (KStr "train") (PBool false) cfg) = true ->
  (dict_get (KStr "val") cfg = None \/
   exists v, dict_get (KStr "val") cfg = Some v /\ truthy v = false) ->
  get_dataset api self w
  = (Err (AssertionError "validation dataset not found"), w).
Proof.
  intros Hcfg Htrain Hval.
  rewrite (get_dataset_eq api self cfg w Hcfg), Htrain. simpl.
  unfold dict_get_default at 1.
  destruct Hval as [-> | [v [-> Hv]]]; simpl; [reflexivity|].
  rewrite Hv. reflexivity.
Qed.

Lemma get_dataset_no_val_witness :
  get_dataset (Tok:=nat) Demo.api
    (Demo.trainer
       (PDict [(KStr "train",
                PDict [(KStr "yolo_data", PList [PStr "Objects365v1.yaml"])]);
               (KStr "val", PDict [])]))
    Demo.world0
  = (Err (AssertionError "validation dataset not found"), Demo.world0).
Proof.
  apply (get_dataset_no_val Demo.api
           (Demo.trainer
              (PDict [(KStr "train",
                       PDict [(KStr "yolo_data", PList [PStr "Objects365v1.yaml"])]);
                      (KStr "val", PDict [])]))
           [(KStr "train",
             PDict [(KStr "yolo_data", PList [PStr "Objects365v1.yaml"])]);
            (KStr "val", PDict [])] Demo.world0 eq_refl eq_refl).
  right. exists (PDict []). split; reflexivity.
Defined.

Section GetDatasetWorld.
Context {Tok Feat : Type}.
Variable api : DataAPI Feat.
Implicit Types (w : World Tok Feat) (cfg : pydict).

Lemma mmap_check_det_world (l : list pyval) w r w' :
  mmap (check_det (Tok:=Tok) api) l w = (r, w') ->
  files w' = files w /\
  (forall ds, r = Ok ds -> trace w' = trace w ++ map EvCheckDetDataset l).
Proof.
  revert w r w'. induction l as [|x xs IH]; simpl; intros w r w' H.
  - injection H as <- <-. split; [reflexivity|]. intros _ _.
    rewrite app_nil_r. reflexivity.
  - unfold bind at 1 in H. unfold check_det at 1, bind, emit, lift in H.
    simpl in H.
    destruct (check_det_dataset api x) as [e|d]; simpl in H.
    + injection H as <- <-. split; [reflexivity|]. intros ds Hds. discriminate Hds.
    + match type of H with
      | context [mmap ?f xs ?w0] =>
          destruct (mmap f xs w0) as [r0 w0'] eqn:Hrest
      end.
      apply IH in Hrest as [Hfiles Htrace]. simpl in Hfiles, Htrace.
      destruct r0 as [e|ds0]; simpl in H; injection H as <- <-.
      * split; [exact Hfiles|]. intros ds Hds. discriminate Hds.
      * split; [exact Hfiles|]. intros ds _.
        rewrite (Htrace ds0 eq_refl), <- app_assoc. reflexivity.
Qed.

Lemma resolve_entry_world (v : pyval) w r w' :
  resolve_entry (Tok:=Tok) api v w = (r, w') ->
  files w' = files w /\
  (forall ds, r = Ok ds ->
     exists l, yolo_sources v = Ok l /\
               trace w' = trace w ++ map EvCheckDetDataset l).
Proof.
  unfold resolve_entry, yolo_sources. rewrite bind_lift.
  destruct (py_get v "yolo_data" (PList [])) as [e|yd]; simpl.
  - intros H. injection H as <- <-. split; [reflexivity|].
    intros ds Hds. discriminate Hds.
  - rewrite bind_lift. destruct (py_iter yd) as [e|l]; simpl.
    + intros H. injection H as <- <-. split; [reflexivity|].
      intros ds Hds. discriminate Hds.
    + intros H. apply mmap_check_det_world in H as [Hfiles Htrace].
      split; [exact Hfiles|]. intros ds Hds. exists l.
      split; [reflexivity | eapply Htrace; exact Hds].
Qed.

Lemma resolve_config_world cfg w r w' :
  resolve_config (Tok:=Tok) api cfg w = (r, w') ->
  files w' = files w /\
  (forall checked, r = Ok checked ->
     trace w' = trace w ++ map EvCheckDetDataset (config_sources cfg)).
Proof.
  unfold resolve_config, config_sources. revert w r w'.
  induction cfg as [|[k v] rest IH]; simpl; intros w r w' H.
  - injection H as <- <-. split; [reflexivity|]. intros _ _.
    rewrite app_nil_r. reflexivity.
  - unfold bind at 1 in H. unfold bind at 1 in H. simpl in H.
    destruct (resolve_entry api v w) as [[e|ds] w1] eqn:Hentry.
    + apply resolve_entry_world in Hentry as [Hfiles _].
      simpl in H. injection H as <- <-. split; [exact Hfiles|].
      intros c Hc. discriminate Hc.
    + apply resolve_entry_world in Hentry as [Hfiles Htrace].
      destruct (Htrace ds eq_refl) as [l [Hl Htr]]. rewrite Hl.
      simpl in H. unfold ret at 1 in H. unfold bind at 1 in H.
      match type of H with
      | context [mmap ?f rest ?w0] =>
          destruct (mmap f rest w0) as [r0 w0'] eqn:Hrest
      end.
      apply IH in Hrest as [Hfiles' Htrace'].
      destruct r0 as [e|c0]; simpl in H; injection H as <- <-.
      * split; [congruence|]. intros c Hc. discriminate Hc.
      * split; [congruence|]. intros c _.
        rewrite (Htrace' c0 eq_refl), Htr, map_app, app_assoc. reflexivity.
Qed.
End GetDatasetWorld.

(** X14: [get_dataset] never changes a file, whatever its outcome; when it
    returns, every source of the configuration has been checked exactly
    once, in the order of the configuration (the sources of entries other
    than [train] and [val] included), and nothing else has been done. *)
Theorem get_dataset_world {Tok Feat} (api : DataAPI Feat) (self : Trainer)
    (cfg : pydict) (w : World Tok Feat) :
  args_data self = PDict cfg ->
  files (snd (get_dataset api self w)) = files w /\
  (forall res, fst (get_dataset api self w) = Ok res ->
     trace (snd (get_dataset api self w)) =
     trace w ++ map EvCheckDetDataset (config_sources cfg)).
Proof.
  intros Hcfg. rewrite (get_dataset_eq api self cfg w Hcfg).
  destruct (negb (truthy (dict_get_default (KStr "train") (PBool false) cfg)));
    [split; [reflexivity | intros res H; discriminate H]|].
  destruct (negb (truthy (dict_get_default (KStr "val") (PBool false) cfg)));
    [split; [reflexivity | intros res H; discriminate H]|].
  destruct (resolve_config api cfg w) as [[e|checked] w'] eqn:Hres;
    apply resolve_config_world in Hres as [Hfiles Htrace]; simpl.
  - split; [exact Hfiles | intros res H; discriminate H].
  - split; [exact Hfiles|]. intros res _. apply (Htrace checked eq_refl).
Qed.

Lemma get_dataset_world_witness :
  trace (snd (get_dataset (Tok:=nat) Demo.api (Demo.trainer Demo.data_yaml)
                Demo.world0))
  = [EvCheckDetDataset (PStr "Objects365v1.yaml");
     EvCheckDetDataset (PStr "lvis.yaml")].
Proof.
  destruct (get_dataset_world (Tok:=nat) Demo.api (Demo.trainer Demo.data_yaml)
              [(KStr "train",
                PDict [(KStr "yolo_data", PList [PStr "Objects365v1.yaml"]);
                       (KStr "grounding_data", PList [Demo.flickr])]);
               (KStr "val", PDict [(KStr "yolo_data", PList [PStr "lvis.yaml"])])]
              Demo.world0 eq_refl) as [_ Htrace].
  destruct (fst (get_dataset (Tok:=nat) Demo.api (Demo.trainer Demo.data_yaml)
                   Demo.world0)) as [e|res] eqn:Hres.
  { exfalso. vm_compute in Hres. discriminate Hres. }
  rewrite (Htrace res eq_refl). reflexivity.
Defined.

Lemma assert_dicts_Ok (gs : list pyval) (u : unit) :
  assert_dicts gs = Ok u -> Forall is_dict gs.
Proof.
  induction gs as [|g rest IH]; simpl; intros H; [constructor|].
  destruct g; simpl in H; try discriminate H.
  constructor; [eexists; reflexivity | auto].
Qed.

Lemma split_sources_Ok (cfg : pydict) (checked : dict pykey (list pydict))
    (vsplit s : string) (l : list pyval) :
  split_sources cfg checked vsplit s = Ok l ->
  exists ds paths entry gd,
    dict_get (KStr s) checked = Some ds /\
    rmap (dict_item (KStr (if String.eqb s "train" then "train" else vsplit))) ds
    = Ok paths /\
    dict_get (KStr s) cfg = Some entry /\
    py_get entry "grounding_data" PNone = Ok gd /\
    l = paths ++ grounding_entries gd /\
    Forall is_dict (grounding_entries gd).
Proof.
  unfold split_sources. intros H.
  rstep H vds Eds. rstep H vpaths Epaths. rstep H ventry Eentry.
  rstep H vgd Egd.
  apply dict_item_Ok in Eds, Eentry.
  exists vds, vpaths, ventry, vgd.
  repeat (split; [assumption|]).
  destruct vgd;
    try (injection H as <-; split; [symmetry; apply app_nil_r | constructor]);
    rstep H vu Eu; injection H as <-;
    (split; [reflexivity | eapply assert_dicts_Ok; exact Eu]).
Qed.

(** The parts of an accepted configuration that concern training. *)
Lemma assemble_train (self self' : Trainer) (cfg : pydict)
    (checked : dict pykey (list pydict)) (train val : pyval) :
  assemble self cfg checked = Ok (self', (train, val)) ->
  exists tds paths entry gd vl,
    dict_get (KStr "train") checked = Some tds /\
    rmap (dict_item (KStr "train")) tds = Ok paths /\
    dict_get (KStr "train") cfg = Some entry /\
    py_get entry "grounding_data" PNone = Ok gd /\
    train = PList (paths ++ grounding_entries gd) /\
    Forall is_dict (grounding_entries gd) /\
    index_training_data tds [] = Ok (training_data self') /\
    dict_keys (data self') =
      [KStr "train"; KStr "val"; KStr "nc"; KStr "names"; KStr "path"] /\
    dict_get (KStr "train") (data self') = Some train /\
    dict_get (KStr "val") (data self') = Some (PList (val :: vl)) /\
    args_data self' = args_data self.
Proof.
  unfold assemble. intros H.
  rstep H vdata Eval.
  unfold rassert in H at 1.
  destruct (length vdata =? 1)%nat eqn:Hlen; [|discriminate H].
  cbn [rbind Ok] in H.
  rstep H vd0 Ed0. rstep H vsplit Esplit. rstep H vdata' Emin.
  rstep H vtrains Etrain. rstep H vvals Evals.
  rstep H vd0' Ed0'.
  rstep H vnc Enc. rstep H vnames Enames. rstep H vpath Epath.
  rstep H vtd Etd. rstep H vidx Eidx. rstep H vval0 Eval0.
  unfold Ok in H. injection H as <- <- <-.
  apply split_sources_Ok in Etrain
    as [tds [paths [entry [gd [Htds [Hpaths [Hentry [Hgd [-> Hdicts]]]]]]]]].
  rewrite dict_get_set_ne in Htds by discriminate.
  apply dict_item_Ok in Etd. rewrite dict_get_set_ne in Etd by discriminate.
  assert (vtd = tds) by congruence. subst vtd.
  destruct vvals as [|v0 vl]; [discriminate Eval0|]. injection Eval0 as <-.
  exists tds, paths, entry, gd, vl. simpl.
  repeat (split; [assumption || reflexivity|]). reflexivity.
Qed.

Lemma py_hash_KStr (t : pyval) (s : string) :
  py_hash t = Ok (KStr s) -> t = PStr s.
Proof.
  destruct t as [|c|z|s0|q|l|d]; simpl; intros H; try discriminate H.
  injection H as ->. reflexivity.
Qed.

Lemma index_training_data_sound (P : pydict -> Prop) (ds : list pydict)
    (acc idx : dict pykey pydict) :
  index_training_data ds acc = Ok idx ->
  (forall d, In d ds -> P d) ->
  (forall k d, dict_get k acc = Some d ->
     P d /\ forall s, k = KStr s -> dict_get (KStr "train") d = Some (PStr s)) ->
  forall k d, dict_get k idx = Some d ->
    P d /\ forall s, k = KStr s -> dict_get (KStr "train") d = Some (PStr s).
Proof.
  revert acc. induction ds as [|d0 rest IH]; simpl; intros acc H Hds Hacc.
  - injection H as <-. exact Hacc.
  - rstep H vt Et. rstep H vk Ek.
    apply (IH _ H); [auto|].
    intros k d. rewrite dict_get_set.
    destruct (decide (k = vk)) as [->|Hne]; [|apply Hacc].
    intros Hd. injection Hd as <-. split; [auto|].
    intros s ->. apply py_hash_KStr in Ek. subst vt.
    apply dict_item_Ok. exact Et.
Qed.

Lemma index_training_data_covers (ds : list pydict)
    (acc idx : dict pykey pydict) (k : pykey) :
  index_training_data ds acc = Ok idx ->
  (is_Some (dict_get k acc) \/
   exists d t, In d ds /\ dict_get (KStr "train") d = Some t /\ py_hash t = Ok k) ->
  is_Some (dict_get k idx).
Proof.
  revert acc. induction ds as [|d0 rest IH]; simpl; intros acc H Hk.
  - injection H as <-. destruct Hk as [Hk|[d [t [[] _]]]]. exact Hk.
  - rstep H vt Et. rstep H vk Ek.
    apply (IH _ H). rewrite dict_get_set.
    destruct (decide (k = vk)) as [->|Hne]; [left; eauto|].
    destruct Hk as [Hk|[d [t [[<-|Hin] [Ht Hh]]]]].
    + left. exact Hk.
    + exfalso. apply dict_item_Ok in Et. rewrite Ht in Et.
      injection Et as <-. unfold Ok in Hh, Ek. congruence.
    + right. eauto.
Qed.

Lemma Forall2_In_r {A B} (R : A -> B -> Prop) (l : list A) (l' : list B) (y : B) :
  Forall2 R l l' -> In y l' -> exists x, In x l /\ R x y.
Proof.
  induction 1 as [|x y' l l' Hxy _ IH]; simpl; [intros []|].
  intros [<-|Hin]; [eauto|].
  destruct (IH Hin) as [x' [Hx' HR]]. eauto.
Qed.

(** The training part of an accepted configuration. *)
Lemma get_dataset_train_parts {Tok Feat} (api : DataAPI Feat)
    (self self' : Trainer) (w w' : World Tok Feat) (train val : pyval) :
  get_dataset api self w = (Ok (self', (train, val)), w') ->
  exists cfg entry tds paths gd vl,
    args_data self = PDict cfg /\
    dict_get (KStr "train") cfg = Some entry /\
    checked_entry api entry = Ok tds /\
    Forall2 (fun d p => dict_get (KStr "train") d = Some p) tds paths /\
    py_get entry "grounding_data" PNone = Ok gd /\
    train = PList (paths ++ grounding_entries gd) /\
    Forall is_dict (grounding_entries gd) /\
    index_training_data tds [] = Ok (training_data self') /\
    dict_keys (data self') =
      [KStr "train"; KStr "val"; KStr "nc"; KStr "names"; KStr "path"] /\
    dict_get (KStr "train") (data self') = Some train /\
    dict_get (KStr "val") (data self') = Some (PList (val :: vl)) /\
    args_data self' = args_data self.
Proof.
  intros H.
  apply get_dataset_Ok_inv in H as [cfg [checked [Hargs [_ [_ [Hres Hasm]]]]]].
  apply assemble_train in Hasm
    as [tds [paths [entry [gd [vl
         [Htds [Hpaths [Hentry [Hgd [Htrain [Hdicts [Hidx [Hkeys
           [Hdt [Hdv Hsame]]]]]]]]]]]]]]].
  pose proof (resolve_config_get api cfg w checked w' (KStr "train") Hres) as Hget.
  rewrite Hentry in Hget. destruct Hget as [ds [Hchecked Hds]].
  assert (ds = tds) by congruence. subst ds.
  exists cfg, entry, tds, paths, gd, vl.
  repeat (split; [assumption|]).
  split.
  { apply rmap_Forall2 in Hpaths. eapply Forall2_impl; [exact Hpaths|].
    intros d p0 Hd. apply dict_item_Ok. exact Hd. }
  repeat (split; [assumption|]). assumption.
Qed.

(** X15: [get_dataset] prepares what [build_dataset] needs: every path
    string in the train list it returns is a key of the training index it
    stores, under which is one of the checked training datasets, the one
    whose [train] path is that string; so in train mode [build_dataset]
    finds the data of every such path. *)
Theorem get_dataset_indexes_train {Tok Feat} (api : DataAPI Feat)
    (self self' : Trainer) (w w' : World Tok Feat) (train val : pyval) :
  get_dataset api self w = (Ok (self', (train, val)), w') ->
  exists cfg entry tds sources,
    args_data self = PDict cfg /\
    dict_get (KStr "train") cfg = Some entry /\
    checked_entry api entry = Ok tds /\
    train = PList sources /\
    forall s, In (PStr s) sources ->
      exists d,
        In d tds /\
        dict_get (KStr "train") d = Some (PStr s) /\
        dict_get (KStr s) (training_data self') = Some d /\
        forall batch gs,
          build_source api self' batch gs (PStr s) =
          Ok (build_yolo_dataset api (PStr s) batch d
                [("stride", PInt gs); ("multi_modal", PBool true)]).
Proof.
  intros H.
  apply get_dataset_train_parts in H
    as [cfg [entry [tds [paths [gd [vl
         [Hargs [Hentry [Hchecked [Hpaths [_ [Htrain [Hdicts [Hidx _]]]]]]]]]]]]]].
  exists cfg, entry, tds, (paths ++ grounding_entries gd).
  repeat (split; [assumption|]).
  intros s Hin. apply in_app_or in Hin as [Hin|Hin].
  2:{ exfalso. rewrite List.Forall_forall in Hdicts.
      destruct (Hdicts _ Hin) as [d Hd]. discriminate Hd. }
  destruct (Forall2_In_r _ _ _ _ Hpaths Hin) as [d0 [Hd0 Htr0]].
  assert (Hsome : is_Some (dict_get (KStr s) (training_data self'))).
  { eapply index_training_data_covers; [exact Hidx|].
    right. exists d0, (PStr s). repeat split; assumption || reflexivity. }
  destruct Hsome as [d Hd].
  destruct (index_training_data_sound (fun x => In x tds) tds []
              (training_data self') Hidx (fun x Hx => Hx)
              (fun k x Hk => ltac:(discriminate Hk)) (KStr s) d Hd)
    as [Hmem Htr].
  exists d. split; [exact Hmem|]. split; [apply Htr; reflexivity|].
  split; [exact Hd|].
  intros batch gs. unfold build_source, dict_item. rewrite Hd. reflexivity.
Qed.

Lemma get_dataset_indexes_train_witness :
  exists self' train val w',
    get_dataset (Tok:=nat) Demo.api (Demo.trainer Demo.data_yaml) Demo.world0
    = (Ok (self', (train, val)), w') /\
    is_Some (dict_get (KStr "/datasets/Objects365v1/images/train")
               (training_data self')).
Proof.
  assert (Hrun : exists self' train val w',
             get_dataset (Tok:=nat) Demo.api (Demo.trainer Demo.data_yaml)
               Demo.world0 = (Ok (self', (train, val)), w') /\
             exists rest,
               train = PList (PStr "/datasets/Objects365v1/images/train" :: rest)).
  { do 4 eexists. split; [cbv; reflexivity|]. eexists. reflexivity. }
  destruct Hrun as [self' [train [val [w' [Hrun [rest Htrain]]]]]].
  exists self', train, val, w'. split; [exact Hrun|].
  destruct (get_dataset_indexes_train Demo.api _ _ _ _ _ _ Hrun)
    as [cfg [entry [tds [sources [_ [_ [_ [Hsources Hindex]]]]]]]].
  rewrite Htrain in Hsources. injection Hsources as <-.
  destruct (Hindex "/datasets/Objects365v1/images/train") as [d [_ [_ [Hd _]]]].
  { left. reflexivity. }
  exists d. exact Hd.
Defined.





(** ** Batch preprocessing *)

(** X18: once the detection trainer has preprocessed the batch,
    [YOLOETrainer.preprocess_batch] raises [KeyError] when the batch has no
    [text_feats]; otherwise it adds [txt_feats], the text features moved to
    the device, and leaves every other entry, [text_feats] included, as it
    is.  [YOLOETrainerFromScratch] inherits it.  [YOLOEPEFreeTrainer] and
    [YOLOEPETrainer] return the batch of the detection trainer and never
    look at [text_feats]. *)
Theorem preprocess_batch_text_feats {T} (base : dict string T -> result (dict string T))
    (to_device : string -> T -> T) (self : Trainer) (batch b1 : dict string T) :
  base batch = Ok b1 ->
  (dict_get "text_feats" b1 = None ->
   preprocess_batch base to_device YOLOETrainer self batch = Err KeyError) /\
  (forall t, dict_get "text_feats" b1 = Some t ->
     exists b2,
       preprocess_batch base to_device YOLOETrainer self batch = Ok b2 /\
       dict_get "txt_feats" b2 = Some (to_device (device self) t) /\
       dict_get "text_feats" b2 = Some t /\
       (forall k, k <> "txt_feats" -> dict_get k b2 = dict_get k b1) /\
       (dict_wf b1 -> dict_wf b2)) /\
  preprocess_batch base to_device YOLOETrainerFromScratch self batch =
  preprocess_batch base to_device YOLOETrainer self batch /\
  preprocess_batch base to_device YOLOEPEFreeTrainer self batch = Ok b1 /\
  preprocess_batch base to_device YOLOEPETrainer self batch = Ok b1.
Proof.
  intros Hbase. simpl preprocess_batch.
  unfold YOLOEPEFreeTrainer_preprocess_batch, YOLOETrainer_preprocess_batch.
  rewrite Hbase. cbn [rbind Ok]. unfold dict_item.
  split; [|split; [|repeat split]].
  - intros ->. reflexivity.
  - intros t Ht. rewrite Ht. cbn [rbind Ok]. eexists. split; [reflexivity|].
    split; [apply dict_get_set_eq|].
    split; [rewrite dict_get_set_ne by discriminate; exact Ht|].
    split; [intros k Hk; apply dict_get_set_ne; exact Hk|].
    apply dict_wf_set.
Qed.

Lemma preprocess_batch_text_feats_witness :
  preprocess_batch (fun b : dict string Z => Ok b) (fun _ t => t + 1)
    YOLOETrainer Demo.trained [("img", 7); ("text_feats", 3)]
  = Ok [("img", 7); ("text_feats", 3); ("txt_feats", 4)].
Proof.
  destruct (preprocess_batch_text_feats (fun b : dict string Z => Ok b)
              (fun _ t => t + 1) Demo.trained
              [("img", 7); ("text_feats", 3)] [("img", 7); ("text_feats", 3)]
              eq_refl) as [_ [Hadd _]].
  destruct (Hadd 3 eq_refl) as [b2 [Hrun _]].
  rewrite Hrun. symmetry. rewrite <- Hrun. reflexivity.
Defined.

(** X19: [YOLOEVPTrainer.preprocess_batch], for a batch that the detection
    trainer has preprocessed and that holds [text_feats]: without
    [visuals] it raises [KeyError]; otherwise the result holds [txt_feats]
    and [visuals], both moved to the device, and every other entry as it
    was. *)
Theorem preprocess_batch_visuals {T} (base : dict string T -> result (dict string T))
    (to_device : string -> T -> T) (self : Trainer) (batch b1 : dict string T)
    (t : T) :
  base batch = Ok b1 ->
  dict_get "text_feats" b1 = Some t ->
  (dict_get "visuals" b1 = None ->
   preprocess_batch base to_device YOLOEVPTrainer self batch = Err KeyError) /\
  (forall v, dict_get "visuals" b1 = Some v ->
     exists b3,
       preprocess_batch base to_device YOLOEVPTrainer self batch = Ok b3 /\
       dict_get "txt_feats" b3 = Some (to_device (device self) t) /\
       dict_get "visuals" b3 = Some (to_device (device self) v) /\
       (forall k, k <> "txt_feats" -> k <> "visuals" ->
          dict_get k b3 = dict_get k b1)).
Proof.
  intros Hbase Ht.
  assert (Hrun : preprocess_batch base to_device YOLOEVPTrainer self batch =
                 match dict_get "visuals" b1 with
                 | Some v =>
                     Ok (dict_set "visuals" (to_device (device self) v)
                           (dict_set "txt_feats" (to_device (device self) t) b1))
                 | None => Err KeyError
                 end).
  { simpl preprocess_batch.
    unfold YOLOEVPTrainer_preprocess_batch, YOLOETrainer_preprocess_batch.
    rewrite Hbase. cbn [rbind Ok]. unfold dict_item. rewrite Ht.
    cbn [rbind Ok]. rewrite dict_get_set_ne by discriminate.
    destruct (dict_get "visuals" b1); reflexivity. }
  rewrite Hrun. split.
  - intros ->. reflexivity.
  - intros v Hv. rewrite Hv. eexists. split; [reflexivity|].
    split; [rewrite dict_get_set_ne by discriminate; apply dict_get_set_eq|].
    split; [apply dict_get_set_eq|].
    intros k Hk1 Hk2. rewrite !dict_get_set_ne by assumption. reflexivity.
Qed.

Lemma preprocess_batch_visuals_witness :
  preprocess_batch (fun b : dict string Z => Ok b) (fun _ t => t + 1)
    YOLOEVPTrainer Demo.trained [("img", 7); ("text_feats", 3)]
  = Err KeyError.
Proof.
  destruct (preprocess_batch_visuals (fun b : dict string Z => Ok b)
              (fun _ t => t + 1) Demo.trained
              [("img", 7); ("text_feats", 3)] [("img", 7); ("text_feats", 3)]
              3 eq_refl eq_refl) as [Hmissing _].
  apply Hmissing. reflexivity.
Defined.

(** ** Model construction: the label count *)

(** X20: when the data descriptor has no [nc], [get_model] raises
    [KeyError] in every trainer class.  When [nc] is there but is not a
    number, [YOLOETrainer.get_model] raises [TypeError] (from [min]), while
    [YOLOEPETrainer.get_model] passes the value to the constructor as it
    is. *)
Theorem get_model_bad_label_count (RANK : Z) (self : Trainer)
    (cfg weights c : pyval) (verbose : bool) :
  model_cfg cfg = Ok c ->
  (dict_get (KStr "nc") (data self) = None ->
   forall cls, get_model cls RANK self cfg weights verbose = Err KeyError) /\
  (forall v, dict_get (KStr "nc") (data self) = Some v ->
     is_number v = false ->
     YOLOETrainer_get_model RANK self cfg weights verbose = Err TypeError /\
     exists pe,
       YOLOEPETrainer_get_model RANK self cfg weights verbose = Ok pe /\
       nc (ctor pe) = v).
Proof.
  intros Hc. split.
  - intros Hnc cls.
    destruct cls; simpl;
      unfold YOLOETrainer_get_model, YOLOEPETrainer_get_model, dict_item;
      rewrite Hc, Hnc; reflexivity.
  - intros v Hv Hnum.
    unfold YOLOETrainer_get_model, YOLOEPETrainer_get_model, dict_item.
    rewrite Hc, Hv. cbn [rbind Ok]. split.
    + destruct v; try discriminate Hnum; reflexivity.
    + eexists. split; reflexivity.
Qed.

Lemma get_model_bad_label_count_witness :
  get_model YOLOEVPTrainer (-1) (Demo.trainer Demo.data_yaml)
    (PStr "yoloe-v8s.yaml") PNone true = Err KeyError.
Proof.
  destruct (get_model_bad_label_count (-1) (Demo.trainer Demo.data_yaml)
              (PStr "yoloe-v8s.yaml") PNone (PStr "yoloe-v8s.yaml") true eq_refl)
    as [Hmissing _].
  apply Hmissing. reflexivity.
Defined.
